(** * The rule engines and conversation flow of [lingling_bot_llm.py]

    A shallow embedding of the chat-bot's Context Parser, Rule Engines,
    Renderer and Conversation State Machine, with the properties stated
    about them.

    Python values are modelled as the interpreter has them:
    - [float] is IEEE-754 binary64, i.e. Rocq's primitive [float];
    - [int] is [Z];
    - [str] is a [string] holding the UTF-8 encoding of the text (UTF-8 is
      injective, so equality of texts is equality of byte strings, and the
      ASCII separators [","] and [":"] never occur inside a multi-byte
      character);
    - [dict] is stdpp's [gmap] with string keys;
    - a raised exception is [None] in the option monad. *)

From Stdlib Require Import ZArith Floats String Ascii List Lia Bool.
From Stdlib Require Import Numbers.DecimalString.
From stdpp Require Import gmap strings.

Set Warnings "-inexact-float,-clear-no-such-hyp".
Local Open Scope string_scope.
Local Open Scope Z_scope.

(** ** Floating-point operations of the Python runtime *)

Module PyFloat.

(** [max(a, b)] and [min(a, b)] on two arguments: the first argument is
    kept unless the second compares strictly greater (smaller). *)
Definition py_max (a b : float) : float := if (a <? b)%float then b else a.
Definition py_min (a b : float) : float := if (b <? a)%float then b else a.

(** Nearest integer to [a / d], ties to even ([0 <= a], [0 < d]). *)
Definition div_half_even (a d : Z) : Z :=
  let q := a / d in
  let r := a mod d in
  match 2 * r ?= d with
  | Lt => q
  | Gt => q + 1
  | Eq => if Z.even q then q else q + 1
  end.

(** The integer nearest to [m * 2^e * 100], ties to even: the digits that
    the correctly rounded conversion to two decimals produces. *)
Definition hundredths (m : positive) (e : Z) : Z :=
  if 0 <=? e then Z.pos m * 100 * 2 ^ e
  else div_half_even (Z.pos m * 100) (2 ^ (- e)).

(** The binary64 number nearest to [p / q].  [SFdiv] shifts the dividend
    far enough for any size of [p] and [q], so the quotient is rounded
    once. *)
Definition nearest_ratio (s : bool) (p q : positive) : float :=
  SF2Prim (SFdiv prec emax (S754_finite s p 0) (S754_finite false q 0)).

Definition of_hundredths (s : bool) (n : Z) : float :=
  match n with
  | Z.pos p => nearest_ratio s p 100
  | _ => if s then PrimFloat.neg_zero else PrimFloat.zero
  end.

(** [round(x, 2)]: the value is converted to the nearest decimal with two
    places (ties to even, on the exact binary value) and that decimal is
    read back as the nearest binary64; infinities and NaN are returned
    as they are. *)
Definition py_round2 (x : float) : float :=
  match Prim2SF x with
  | S754_finite s m e => of_hundredths s (hundredths m e)
  | _ => x
  end.

Definition digits_of (n : Z) : string :=
  NilZero.string_of_uint (N.to_uint (Z.to_N n)).

Definition fixed2 (n : Z) : string :=
  digits_of (n / 100) +:+ "." +:+
  (if n mod 100 <? 10 then "0" else "") +:+ digits_of (n mod 100).

(** [format(x, ".2f")] ([plus = false]) and [format(x, "+.2f")]
    ([plus = true]). *)
Definition format_2f (plus : bool) (x : float) : string :=
  let sign (s : bool) := if s then "-" else if plus then "+" else "" in
  match Prim2SF x with
  | S754_nan => sign false +:+ "nan"
  | S754_infinity s => sign s +:+ "inf"
  | S754_zero s => sign s +:+ "0.00"
  | S754_finite s m e => sign s +:+ fixed2 (hundredths m e)
  end.

(** [int(x)] for a float: truncation towards zero; ValueError on NaN and
    OverflowError on an infinity. *)
Definition int_of_float (x : float) : option Z :=
  match Prim2SF x with
  | S754_zero _ => Some 0
  | S754_finite s m e =>
      let a := if 0 <=? e then Z.pos m * 2 ^ e else Z.pos m / 2 ^ (- e) in
      Some (if s then - a else a)
  | _ => None
  end.

(** [float(n)] for an int: the nearest binary64, OverflowError when the
    int is too large. *)
Definition float_of_int (n : Z) : option float :=
  let f := SF2Prim (binary_normalize prec emax n 0 false) in
  if PrimFloat.is_infinity f then None else Some f.

Definition is_digit (c : ascii) : bool :=
  let n := N_of_ascii c in ((48 <=? n) && (n <=? 57))%N.

Definition digit_val (c : ascii) : Z := Z.of_N (N_of_ascii c) - 48.

(** Reads [digits [. digits]], accumulating the digits as one integer and
    counting those after the point. *)
Fixpoint read_decimal (s : string) (seen_point : bool) (acc : Z) (frac nd : nat)
  : option (Z * nat) :=
  match s with
  | EmptyString =>
      match nd with O => None | _ => Some (acc, frac) end
  | String c r =>
      if is_digit c then
        read_decimal r seen_point (10 * acc + digit_val c)
          (if seen_point then S frac else frac) (S nd)
      else if (Ascii.eqb c "."%char && negb seen_point)%bool then
        read_decimal r true acc frac nd
      else None
  end.

(** The value of a plain decimal literal [[+-]digits[.digits]], correctly
    rounded; [None] for any other text.  This is the fragment of the
    grammar of Python's [float(str)] that two-decimal renderings and the
    prompts' examples use. *)
Definition decimal_literal (s : string) : option float :=
  let '(neg, body) :=
    match s with
    | String "-"%char r => (true, r)
    | String "+"%char r => (false, r)
    | _ => (false, s)
    end in
  match read_decimal body false 0 O O with
  | Some (Z.pos p, k) => Some (nearest_ratio neg p (Z.to_pos (10 ^ Z.of_nat k)))
  | Some (_, _) => Some (if neg then PrimFloat.neg_zero else PrimFloat.zero)
  | None => None
  end.

End PyFloat.

(** ** Text operations of the Python runtime *)

Module PyStr.

Definition bytes (l : list N) : string :=
  fold_right (fun n s => String (ascii_of_N n) s) "" l.

Definition nl : string := bytes [10%N].

(** The characters [str.strip()] removes (those for which [str.isspace]
    holds), in UTF-8: U+0009..U+000D, U+001C..U+0020, U+0085, U+00A0,
    U+1680, U+2000..U+200A, U+2028, U+2029, U+202F, U+205F, U+3000. *)
Definition whitespace : list string :=
  map bytes
    [[9]; [10]; [11]; [12]; [13]; [28]; [29]; [30]; [31]; [32];
     [194; 133]; [194; 160]; [225; 154; 128];
     [226; 128; 128]; [226; 128; 129]; [226; 128; 130]; [226; 128; 131];
     [226; 128; 132]; [226; 128; 133]; [226; 128; 134]; [226; 128; 135];
     [226; 128; 136]; [226; 128; 137]; [226; 128; 138];
     [226; 128; 168]; [226; 128; 169]; [226; 128; 175];
     [226; 129; 159]; [227; 128; 128]]%N.

Fixpoint drop (n : nat) (s : string) : string :=
  match n, s with
  | S n', String _ r => drop n' r
  | _, _ => s
  end.

(** Removes one leading occurrence of a member of [ws], if there is one. *)
Fixpoint drop_one (ws : list string) (s : string) : option string :=
  match ws with
  | [] => None
  | w :: ws' =>
      if String.prefix w s then Some (drop (String.length w) s)
      else drop_one ws' s
  end.

(** Every removal consumes at least one byte, so [String.length s] rounds
    are enough. *)
Fixpoint lstrip_with (ws : list string) (fuel : nat) (s : string) : string :=
  match fuel with
  | O => s
  | S fuel' =>
      match drop_one ws s with
      | Some s' => lstrip_with ws fuel' s'
      | None => s
      end
  end.

Definition lstrip (s : string) : string :=
  lstrip_with whitespace (String.length s) s.

Definition rstrip (s : string) : string :=
  String.rev (lstrip_with (map String.rev whitespace) (String.length s) (String.rev s)).

(** [s.strip()] *)
Definition strip (s : string) : string := rstrip (lstrip s).

(** [s.split(sep)] for a one-character separator: never empty. *)
Fixpoint split (sep : ascii) (s : string) : list string :=
  match s with
  | EmptyString => [""]
  | String c r =>
      if Ascii.eqb c sep then "" :: split sep r
      else match split sep r with
           | h :: t => String c h :: t
           | [] => [String c ""]
           end
  end.

(** [s.split(":", 1)[1]]: what follows the first colon ([None]: IndexError
    when there is no colon). *)
Fixpoint after_colon (s : string) : option string :=
  match s with
  | EmptyString => None
  | String c r => if Ascii.eqb c ":"%char then Some r else after_colon r
  end.

(** [needle in hay] *)
Fixpoint contains (needle hay : string) : bool :=
  String.prefix needle hay ||
  match hay with
  | EmptyString => false
  | String _ r => contains needle r
  end.

(** [x in l] for a list of str *)
Definition mem (x : string) (l : list string) : bool :=
  existsb (String.eqb x) l.

End PyStr.

Import PyFloat PyStr.

(** ** Data model *)

(** The values the handlers store in [Dict[str, Any]]. *)
Inductive pyval :=
| VFloat (x : float)
| VInt (n : Z)
| VBool (b : bool)
| VStr (s : string).

(** [class Session].  [micro] only ever receives texts cut out of callback
    data, so its values are [str]. *)
Record Session := mkSession {
  user_id : Z;
  topic : option string;
  question : option string;
  time_horizon : option string;
  micro : gmap string string;
  context_vars : gmap string pyval
}.

(** [Session(user_id=uid)] *)
Definition new_session (uid : Z) : Session :=
  mkSession uid None None None ∅ ∅.

Definition set_topic (t : string) (s : Session) : Session :=
  mkSession (user_id s) (Some t) (question s) (time_horizon s) (micro s) (context_vars s).

Definition set_time_horizon (h : string) (s : Session) : Session :=
  mkSession (user_id s) (topic s) (question s) (Some h) (micro s) (context_vars s).

Definition set_micro (k v : string) (s : Session) : Session :=
  mkSession (user_id s) (topic s) (question s) (time_horizon s)
            (<[k := v]> (micro s)) (context_vars s).

(** [d.update({k1: v1, ...})]: the entries are written in order. *)
Definition dict_update {V} (d : gmap string V) (kvs : list (string * V)) : gmap string V :=
  fold_left (fun m kv => <[kv.1 := kv.2]> m) kvs d.

Definition update_context_vars (kvs : list (string * pyval)) (s : Session) : Session :=
  mkSession (user_id s) (topic s) (question s) (time_horizon s) (micro s)
            (dict_update (context_vars s) kvs).

(** [d.get(k, dflt)] *)
Definition dict_get {V} (d : gmap string V) (k : string) (dflt : V) : V :=
  default dflt (d !! k).

(** The dictionary a rule engine returns. *)
Record Result := mkResult {
  title : string;
  horizon : string;
  prob : float;
  explain : string;
  opportunity : string;
  risk : string;
  actions : list string
}.

(** [o or dflt] for an optional text: [None] and the empty text are
    falsy. *)
Definition or_text (o : option string) (dflt : string) : string :=
  match o with
  | Some s => if String.eqb s "" then dflt else s
  | None => dflt
  end.

(** [sess.time_horizon or "3m"] *)
Definition horizon_or_3m (s : Session) : string :=
  or_text (time_horizon s) "3m".

Section Bot.

(** The built-in conversions [float(s)] and [int(s)] of a text [s]
    belong to the interpreter, not to the repository: they are
    parameters.  [None] stands for the ValueError they raise. *)
Variable str_float : string -> option float.
Variable str_int : string -> option Z.

(** [float(v)], [int(v)] and [bool(v)] on a stored value. *)
Definition py_float (v : pyval) : option float :=
  match v with
  | VFloat x => Some x
  | VInt n => float_of_int n
  | VBool b => Some (if b then 1 else 0)%float
  | VStr s => str_float s
  end.

Definition py_int (v : pyval) : option Z :=
  match v with
  | VFloat x => int_of_float x
  | VInt n => Some n
  | VBool b => Some (if b then 1 else 0)
  | VStr s => str_int s
  end.

Definition py_bool (v : pyval) : bool :=
  match v with
  | VFloat x => negb (x =? 0)%float
  | VInt n => negb (n =? 0)
  | VBool b => b
  | VStr s => negb (String.eqb s "")
  end.

(** ** Rule engines *)

Definition career_actions_time : list string :=
  ["本周至少投递 20 份定制化简历";
   "更新/打磨 1 个作品集案例，并发到公开平台";
   "联系 3 位行业前辈约 15 分钟电话/咖啡聊"].

Definition career_actions_budget : list string :=
  ["投入少量预算做作品集展示页或头像简历设计";
   "购买 1 门针对性课程，7 天内完成 30%";
   "报名 1 场行业活动，现场建立 5 个新连接"].

Definition career_rule_engine (sess : Session) : option Result :=
  let baseline := 0.45%float in
  years ← py_float (dict_get (context_vars sess) "years" (VInt 0));
  let portfolio := py_bool (dict_get (context_vars sess) "portfolio" (VBool false)) in
  cash_buf ← py_float (dict_get (context_vars sess) "cash_buffer_months" (VInt 0));
  let factor := 1.0%float in
  let factor :=
    (if years <? 1 then factor * 0.90
     else if years <? 3 then factor * 1.00
     else if years <? 5 then factor * 1.05
     else factor * 1.10)%float in
  let adj_portfolio := (if portfolio then 0.08 else 0.0)%float in
  let adj_cash :=
    (if cash_buf <? 3 then -0.03
     else if 6 <=? cash_buf then 0.03
     else 0.0)%float in
  let orientation := dict_get (micro sess) "orientation" "stable" in
  let investment := dict_get (micro sess) "investment" "time" in
  let prob :=
    py_max 0.05 (py_min 0.95 (baseline * factor + adj_portfolio + adj_cash))%float in
  let actions :=
    ([] ++ (if String.eqb investment "time" then career_actions_time
            else career_actions_budget))%list in
  let '(opportunity, risk) :=
    if String.eqb orientation "break"
    then ("更大胆的岗位跨度/地域探索可能给你带来意外窗口",
          "过度追新可能忽略稳定的成长曲线")
    else ("在现有赛道做垂直深挖，短期更易获得正反馈",
          "过于保守可能错过周期回暖的上车点") in
  Some {|
    title := "🌟 事业/工作占卜";
    horizon := horizon_or_3m sess;
    prob := py_round2 prob;
    explain :=
      "基线" +:+ format_2f false baseline +:+
      " × 经验因子" +:+ format_2f false factor +:+
      " + 作品集" +:+ format_2f true adj_portfolio +:+
      " + 现金缓冲" +:+ format_2f true adj_cash;
    opportunity := opportunity;
    risk := risk;
    actions := actions
  |}.

Definition study_actions : list string :=
  ["采用番茄钟：每天 2~3 个 25min 深度块";
   "过去真题错题本复盘，锁定 2 个高频薄弱点";
   "每周一次 90min 模拟题，复盘用 3 色笔标注"].

Definition study_rule_engine (sess : Session) : option Result :=
  let baseline := 0.40%float in
  cur ← py_float (dict_get (context_vars sess) "current_score" (VInt 0));
  hours ← py_float (dict_get (context_vars sess) "hours_per_week" (VInt 0));
  ddl ← py_int (dict_get (context_vars sess) "ddl_days" (VInt 30));
  let factor := 1.0%float in
  let factor :=
    (if 85 <=? cur then factor * 1.10
     else if 70 <=? cur then factor * 1.00
     else factor * 0.95)%float in
  let adj_hours :=
    (if 14 <=? hours then 0.08
     else if 7 <=? hours then 0.04
     else 0.00)%float in
  let adj_ddl := (if ddl <? 14 then (-0.05)%float else 0.0%float) in
  let prob :=
    py_max 0.05 (py_min 0.95 (baseline * factor + adj_hours + adj_ddl))%float in
  Some {|
    title := "📚 学业/考试占卜";
    horizon := horizon_or_3m sess;
    prob := py_round2 prob;
    explain :=
      "基线" +:+ format_2f false baseline +:+
      " × 水平因子" +:+ format_2f false factor +:+
      " + 投入" +:+ format_2f true adj_hours +:+
      " + 期限" +:+ format_2f true adj_ddl;
    opportunity := "稳定的学习节律会快速抬升分数下限";
    risk := "临近DDL的焦虑会侵蚀专注力";
    actions := study_actions
  |}.

Definition finance_actions : list string :=
  ["设定月度自动定投，占比不超过可支配收入的 20%";
   "同时持有 3~5 个低相关资产，月度再平衡";
   "写下『最大回撤止损线』并严格执行"].

Definition finance_rule_engine (sess : Session) : option Result :=
  let baseline := 0.50%float in
  expy ← py_float (dict_get (context_vars sess) "exp_years" (VInt 0));
  dd ← py_float (dict_get (context_vars sess) "max_drawdown_pct" (VInt 10));
  budget ← py_float (dict_get (context_vars sess) "budget_month" (VInt 0));
  let factor := 1.0%float in
  let factor :=
    (if expy <? 1 then factor * 0.95
     else if 3 <? expy then factor * 1.05
     else factor)%float in
  let adj_dd :=
    (if dd <? 8 then -0.02
     else if 25 <? dd then -0.02
     else 0.02)%float in
  let prob := py_max 0.05 (py_min 0.95 (baseline * factor + adj_dd))%float in
  Some {|
    title := "💰 财务/投资占卜";
    horizon := horizon_or_3m sess;
    prob := py_round2 prob;
    explain :=
      "基线" +:+ format_2f false baseline +:+
      " × 经验因子" +:+ format_2f false factor +:+
      " + 风险偏好" +:+ format_2f true adj_dd;
    opportunity := "纪律型策略在中长期更容易校准预期";
    risk := "过高或过低的风险偏好都会削弱收益质量";
    actions := finance_actions
  |}.

Definition generic_actions : list string :=
  ["记录今天让你心情+1的事情";
   "联系一位久未联络的朋友并表达感谢";
   "为本周设定一个可完成的小目标"].

Definition generic_template_engine (sess : Session) (title : string)
    (baseline : float) : Result :=
  let prob := py_round2 (py_max 0.05 (py_min 0.95 baseline))%float in
  {|
    title := title;
    horizon := horizon_or_3m sess;
    prob := prob;
    explain := "基线" +:+ format_2f false baseline;
    opportunity := "细水长流的改变会在 2~4 周内显现";
    risk := "情绪波动可能让你中断节律";
    actions := generic_actions
  |}.

End Bot.

(** ** Oracle *)

Definition oracle_themes : list (string * string) :=
  [("🌿 自然与复原", "给自己留出呼吸的缝隙");
   ("✨ 星光与灵感", "记录一个突然的想法并立刻行动 15 分钟");
   ("🔥 行动与突破", "用一个小目标点燃今天的火花");
   ("🌊 秩序与收敛", "把桌面与待办清一次，轻装前行")].

Definition oracle_actions : list string :=
  ["写下今天最重要的一件事，并用 25 分钟完成第一步";
   "给一位可能帮助你的人发出一条真诚的信息";
   "补一杯水/做 10 个深呼吸，让节律回到身上"].

(** [random.choice(seq)] is [seq[k]] for an index [k] below [len(seq)] that
    the generator draws; the draw is an input, reduced to the range.
    IndexError ([None]) on an empty sequence. *)
Definition random_choice {A} (draw : nat) (seq : list A) : option A :=
  seq !! (draw mod length seq)%nat.

Definition generate_oracle (draw : nat) (sess : Session) : option string :=
  '(theme, hint) ← random_choice draw oracle_themes;
  let actions := oracle_actions in
  Some ("【随缘星叶指引】" +:+ nl +:+ "主题：" +:+ theme +:+ nl +:+
        "机会：" +:+ hint +:+ nl +:+ "风险：分心与犹豫会稀释星光" +:+ nl +:+
        "行动三步：" +:+ nl +:+
        "- " +:+ nth 0 actions "" +:+ nl +:+
        "- " +:+ nth 1 actions "" +:+ nl +:+
        "- " +:+ nth 2 actions "" +:+ nl +:+
        "若想更具体，只需回我一个主题：事业/感情/学业/财务/健康/成长").

(** ** Renderer *)

Definition horizon_label (h : string) : string :=
  if String.eqb h "1m" then "本月"
  else if String.eqb h "3m" then "三个月"
  else if String.eqb h "6m" then "半年"
  else "三个月".

Definition assemble_base_markdown (res : Result) : string :=
  let horizon := horizon_label (horizon res) in
  let actions_text := String.concat nl (map (fun a => "- " +:+ a) (actions res)) in
  title res +:+ "｜时间窗口：" +:+ horizon +:+ nl +:+
  "【结论】成功概率：" +:+ format_2f false (prob res) +:+ nl +:+
  "【依据】" +:+ explain res +:+ nl +:+
  "【机会】" +:+ opportunity res +:+ nl +:+
  "【风险】" +:+ risk res +:+ nl +:+
  "【行动三步】" +:+ nl +:+ actions_text.

(** What the body of the [try] block around the chat-completion request
    comes to: the returned message content, or some exception [e] whose
    text is [str(e)]. *)
Inductive llm_outcome :=
| Completed (content : string)
| Failed (e : string).

(** What the outside world contributes while one update is handled: the
    random draw and the answer of the rewriting service to a text. *)
Record World := mkWorld {
  draw : nat;
  chat : string -> llm_outcome
}.

Definition no_key_notice : string :=
  nl +:+ nl +:+ "(提示：未设置 OPENAI_API_KEY，当前使用基础文案。)".

Definition failure_notice (e : string) : string :=
  nl +:+ nl +:+ "(LLM 渲染失败，已回退基础文案：" +:+ e +:+ ")".

Definition render_with_llm_or_plain (USE_LLM : bool) (w : World)
    (base_text persona : string) : string :=
  if negb USE_LLM then base_text +:+ no_key_notice
  else match chat w base_text with
       | Completed content => strip content
       | Failed e => base_text +:+ failure_notice e
       end.

Definition topic_is (t : option string) (name : string) : bool :=
  match t with
  | Some s => String.eqb s name
  | None => false
  end.

Section Routing.

Variable str_float : string -> option float.
Variable str_int : string -> option Z.

(** The engine [generate_by_topic] selects; [None] for a topic without
    one. *)
Definition engine_of_topic (t : option string) : option (Session -> option Result) :=
  if topic_is t "career" then Some (career_rule_engine str_float)
  else if topic_is t "study" then Some (study_rule_engine str_float str_int)
  else if topic_is t "finance" then Some (finance_rule_engine str_float)
  else if topic_is t "love" then
    Some (fun sess => Some (generic_template_engine sess "💞 感情/关系占卜" 0.55))
  else if topic_is t "health" then
    Some (fun sess => Some (generic_template_engine sess "🩺 健康/作息占卜" 0.52))
  else if topic_is t "growth" then
    Some (fun sess => Some (generic_template_engine sess "🧭 自我成长占卜" 0.53))
  else None.

Definition generate_by_topic (sess : Session) : option string :=
  match engine_of_topic (topic sess) with
  | Some engine =>
      res ← engine sess;
      Some (assemble_base_markdown res)
  | None => Some "暂不支持该主题。"
  end.

End Routing.

(** ** Conversation handlers *)

Inductive state :=
| CHOOSING_TOPIC
| MICRO_Q1
| MICRO_Q2
| MICRO_Q3
| COLLECT_CONTEXT.

(** What a handler returns: a state, [ConversationHandler.END], or [None]
    (the conversation stays where it is). *)
Inductive handler_return :=
| Next (s : state)
| END
| Unchanged.

(** The effect of one handler call: its return value, the content of
    [context.user_data["session"]] afterwards and the texts sent with
    [reply_text], in order.  Inline keyboards, chat actions and the pause
    of [typing] belong to the transport and leave no trace here. *)
Record reaction := mkReaction {
  next : handler_return;
  session : option Session;
  replies : list string
}.

Definition affirmative_tokens : list string :=
  ["是"; "有"; "yes"; "Yes"; "y"; "Y"].

(** [conv(parts[i]) if len(parts) > i else dflt] *)
Definition field_or {A} (conv : string -> option A) (parts : list string)
    (i : nat) (dflt : A) : option A :=
  match parts !! i with
  | Some p => conv p
  | None => Some dflt
  end.

(** The outcome of the topic branches of [on_collect_context]: the entries
    passed to [context_vars.update], or the final [else] branch. *)
Inductive parsed :=
| Vars (kvs : list (string * pyval))
| Unsupported.

(** The prompts of [on_micro_q3]: [prompts.get(topic, ...)]. *)
Definition context_prompt (t : option string) : string :=
  if topic_is t "career" then
    "好～再补充 3 个小信息：" +:+ nl +:+
    "1) 你的从业年限（数字，如 3）" +:+ nl +:+
    "2) 是否有在线作品集（是/否）" +:+ nl +:+
    "3) 现金缓冲（月数，数字，如 4）" +:+ nl +:+ nl +:+
    "请按格式一次性回复：年限, 是否有作品集, 缓冲月数" +:+ nl +:+
    "例如：3, 是, 4"
  else if topic_is t "study" then
    "补充 3 个信息：当前分数(或水平), 每周可投入时长(小时), 考试DDL(天数)。" +:+ nl +:+
    "示例：68, 10, 45"
  else if topic_is t "finance" then
    "补充 3 个信息：投资经验年限, 可承受最大回撤%(数字), 每月可投入预算(元)。" +:+ nl +:+
    "示例：2, 15, 3000"
  else if topic_is t "love" then
    "补充 3 个信息：当前关系状态(单身/暧昧/稳定), 沟通频率(次/周), 城市距离(同城/异地)。" +:+ nl +:+
    "示例：暧昧, 3, 同城"
  else if topic_is t "health" then
    "补充 3 个信息：平均睡眠小时(数字), 运动频次(次/周), 最近压力1-5。" +:+ nl +:+
    "示例：6.5, 1, 4"
  else if topic_is t "growth" then
    "补充 3 个信息：目标(如演讲/写作/编程), 每周可投入小时, 当前难点(一句话)。" +:+ nl +:+
    "示例：演讲, 5, 怕上台"
  else "请按提示补充信息".

(** [[p.strip() for p in text.split(",")]] *)
Definition parts_of (text : string) : list string :=
  map strip (split ","%char text).

Definition retry_prompt : string := "格式看起来不太对，可以按示例再发一次吗？".
Definition unsupported_notice : string := "暂不支持此主题，请 /menu 重新选择".
Definition received_notice : string := "收到～让我凝视星叶片刻……🔮".
Definition another_prompt : string := "还想占卜别的主题吗？👇".

Definition oracle_intro : string := "🃏 好的～为你抽取一份『随缘星叶指引』……".
Definition oracle_followup : string := "需要深入某个主题吗？点一个继续～".

Section Handlers.

Variable str_float : string -> option float.
Variable str_int : string -> option Z.
(** [USE_LLM] is fixed when the module is loaded. *)
Variable USE_LLM : bool.

(** [int(float(p))] *)
Definition int_of_float_text (p : string) : option Z :=
  x ← str_float p; int_of_float x.

(** The body of the [try] block of [on_collect_context] after the split;
    [None] is an exception raised in it. *)
Definition parse_context (t : option string) (parts : list string) : option parsed :=
  if topic_is t "career" then
    years ← field_or str_float parts 0 0.0%float;
    portfolio ← field_or Some parts 1 "否";
    cash_buf ← field_or str_float parts 2 0.0%float;
    Some (Vars [("years", VFloat years);
                ("portfolio", VBool (mem portfolio affirmative_tokens));
                ("cash_buffer_months", VFloat cash_buf)])
  else if topic_is t "study" then
    cur_score ← field_or str_float parts 0 0.0%float;
    hours ← field_or str_float parts 1 0.0%float;
    ddl_days ← field_or int_of_float_text parts 2 30;
    Some (Vars [("current_score", VFloat cur_score);
                ("hours_per_week", VFloat hours);
                ("ddl_days", VInt ddl_days)])
  else if topic_is t "finance" then
    exp_years ← field_or str_float parts 0 0.0%float;
    max_dd ← field_or str_float parts 1 10.0%float;
    budget ← field_or str_float parts 2 0.0%float;
    Some (Vars [("exp_years", VFloat exp_years);
                ("max_drawdown_pct", VFloat max_dd);
                ("budget_month", VFloat budget)])
  else if topic_is t "love" then
    status ← field_or Some parts 0 "未知";
    freq ← field_or str_float parts 1 0.0%float;
    distance ← field_or Some parts 2 "同城";
    Some (Vars [("status", VStr status);
                ("comm_freq_per_week", VFloat freq);
                ("distance", VStr distance)])
  else if topic_is t "health" then
    sleep_h ← field_or str_float parts 0 7.0%float;
    sport ← field_or str_float parts 1 0.0%float;
    stress ← field_or int_of_float_text parts 2 3;
    Some (Vars [("sleep_h", VFloat sleep_h);
                ("sport_freq", VFloat sport);
                ("stress", VInt (Z.max 1 (Z.min stress 5)))])
  else if topic_is t "growth" then
    goal ← field_or Some parts 0 "自我提升";
    hours ← field_or str_float parts 1 0.0%float;
    pain ← field_or Some parts 2 "不明确";
    Some (Vars [("goal", VStr goal);
                ("hours_per_week", VFloat hours);
                ("pain_point", VStr pain)])
  else Some Unsupported.

(** Handlers return [None] when an exception leaves them. *)

Definition start (uid : Z) : option reaction :=
  Some (mkReaction (Next CHOOSING_TOPIC) (Some (new_session uid))
          ["🌙 欢迎来到【算命女巫·灵灵】" +:+ nl +:+ nl +:+
           "不急着提问题，我们可以先从一个方向开始：" +:+ nl +:+
           "请从下列主题中选择 👇"]).

Definition menu (ud : option Session) : option reaction :=
  Some (mkReaction (Next CHOOSING_TOPIC) ud ["请选择一个主题开始占卜～"]).

Definition on_topic_callback (w : World) (uid : Z) (ud : option Session)
    (data : string) : option reaction :=
  let sess := default (new_session uid) ud in
  if String.prefix "topic:" data then
    topic ← after_colon data;
    let sess := set_topic topic sess in
    if String.eqb topic "oracle" then
      base_text ← generate_oracle (draw w) sess;
      let final_text := render_with_llm_or_plain USE_LLM w base_text "oracle" in
      Some (mkReaction (Next CHOOSING_TOPIC) (Some sess)
              [oracle_intro; final_text; oracle_followup])
    else
      Some (mkReaction (Next MICRO_Q1) (Some sess)
              ["先回答 2～3 个小问题，帮我更准确地指引你。" +:+ nl +:+ nl +:+
               "Q1：你更关心的时间窗口是？"])
  else Some (mkReaction (Next CHOOSING_TOPIC) (Some sess) []).

Definition on_micro_q1 (ud : option Session) (data : string) : option reaction :=
  match ud with
  | None => Some (mkReaction (Next CHOOSING_TOPIC) ud [])
  | Some sess =>
      if String.prefix "t:" data then
        h ← after_colon data;
        Some (mkReaction (Next MICRO_Q2) (Some (set_time_horizon h sess))
                ["Q2：你当前更倾向于？"])
      else Some (mkReaction (Next MICRO_Q1) ud [])
  end.

Definition on_micro_q2 (ud : option Session) (data : string) : option reaction :=
  match ud with
  | None => Some (mkReaction (Next CHOOSING_TOPIC) ud [])
  | Some sess =>
      if String.prefix "ori:" data then
        v ← after_colon data;
        Some (mkReaction (Next MICRO_Q3) (Some (set_micro "orientation" v sess))
                ["Q3：你本周更愿意投入？"])
      else Some (mkReaction (Next MICRO_Q2) ud [])
  end.

Definition on_micro_q3 (ud : option Session) (data : string) : option reaction :=
  match ud with
  | None => Some (mkReaction (Next CHOOSING_TOPIC) ud [])
  | Some sess =>
      if String.prefix "inv:" data then
        v ← after_colon data;
        let sess := set_micro "investment" v sess in
        Some (mkReaction (Next COLLECT_CONTEXT) (Some sess)
                [context_prompt (topic sess)])
      else Some (mkReaction (Next MICRO_Q3) ud [])
  end.

Definition on_collect_context (w : World) (ud : option Session)
    (message_text : option string) : option reaction :=
  match ud with
  | None => Some (mkReaction END ud ["会话已重置，请 /start 重新开始"])
  | Some sess =>
      let text := strip (or_text message_text "") in
      match parse_context (topic sess) (parts_of text) with
      | None =>
          Some (mkReaction (Next COLLECT_CONTEXT) ud [retry_prompt])
      | Some Unsupported =>
          Some (mkReaction (Next CHOOSING_TOPIC) ud [unsupported_notice])
      | Some (Vars kvs) =>
          let sess := update_context_vars kvs sess in
          base_text ← generate_by_topic str_float str_int sess;
          let final_text :=
            render_with_llm_or_plain USE_LLM w base_text
              (or_text (topic sess) "generic") in
          Some (mkReaction (Next CHOOSING_TOPIC) (Some sess)
                  [received_notice; final_text; another_prompt])
      end
  end.

Definition help_cmd (ud : option Session) : option reaction :=
  Some (mkReaction Unchanged ud
          ["你可以输入 /menu 重新呼出主菜单；若不确定主题，选择『随缘抽签』试试。"]).

Definition cancel (ud : option Session) : option reaction :=
  Some (mkReaction END ud ["会话已结束，输入 /start 重新开始～"]).

End Handlers.

(** ** The conversation as wired in [build_app] *)

Inductive update :=
| Command (name : string)
| CallbackQuery (data : string)
| TextMessage (text : string).

(** The conversation state kept by the [ConversationHandler] ([None]
    outside a conversation) and the user's stored Session. *)
Record bot := mkBot {
  conv : option state;
  user_data : option Session
}.

Definition initial : bot := mkBot None None.

Section Conversation.

Variable str_float : string -> option float.
Variable str_int : string -> option Z.
Variable USE_LLM : bool.
Variable uid : Z.

Definition fallbacks (ud : option Session) (u : update) : option (option reaction) :=
  match u with
  | Command name =>
      if String.eqb name "cancel" then Some (cancel ud)
      else if String.eqb name "help" then Some (help_cmd ud)
      else None
  | _ => None
  end.

(** The handlers registered for a state, then the fallbacks. *)
Definition state_handlers (w : World) (st : state) (ud : option Session)
    (u : update) : option (option reaction) :=
  match st, u with
  | CHOOSING_TOPIC, CallbackQuery data =>
      if String.prefix "topic:" data
      then Some (on_topic_callback USE_LLM w uid ud data)
      else fallbacks ud u
  | MICRO_Q1, CallbackQuery data =>
      if String.prefix "t:" data then Some (on_micro_q1 ud data)
      else fallbacks ud u
  | MICRO_Q2, CallbackQuery data =>
      if String.prefix "ori:" data then Some (on_micro_q2 ud data)
      else fallbacks ud u
  | MICRO_Q3, CallbackQuery data =>
      if String.prefix "inv:" data then Some (on_micro_q3 ud data)
      else fallbacks ud u
  | COLLECT_CONTEXT, TextMessage text =>
      Some (on_collect_context str_float str_int USE_LLM w ud (Some text))
  | _, _ => fallbacks ud u
  end.

(** Which handler takes an update, and its reaction.  The entry points
    are tried first ([allow_reentry=True]); outside a conversation only
    they, and the stand-alone [/help] handler, apply.  The outer [None]
    means that no handler matches and the update is dropped. *)
Definition dispatch (w : World) (b : bot) (u : update) : option (option reaction) :=
  let ud := user_data b in
  let entry :=
    match u with
    | Command name =>
        if String.eqb name "start" then Some (start uid)
        else if String.eqb name "menu" then Some (menu ud)
        else None
    | _ => None
    end in
  match entry, conv b with
  | Some r, _ => Some r
  | None, Some st => state_handlers w st ud u
  | None, None =>
      match u with
      | Command name => if String.eqb name "help" then Some (help_cmd ud) else None
      | _ => None
      end
  end.

(** One update: the new state and the texts sent.  [None] when an
    exception leaves the handler. *)
Definition step (b : bot) (uw : update * World) : option (bot * list string) :=
  match dispatch uw.2 b uw.1 with
  | None => Some (b, [])
  | Some None => None
  | Some (Some r) =>
      let c := match next r with
               | Next s => Some s
               | END => None
               | Unchanged => conv b
               end in
      Some (mkBot c (session r), replies r)
  end.

Fixpoint run (b : bot) (trace : list (update * World)) : option bot :=
  match trace with
  | [] => Some b
  | uw :: rest =>
      match step b uw with
      | Some (b', _) => run b' rest
      | None => None
      end
  end.

Inductive reachable : bot -> Prop :=
| reach_initial : reachable initial
| reach_step b uw b' out :
    reachable b -> step b uw = Some (b', out) -> reachable b'.

End Conversation.

(** ** Reading an explanation back *)

Module Explanation.

Definition is_sign (c : ascii) : bool :=
  Ascii.eqb c "+"%char || Ascii.eqb c "-"%char.

Definition is_numeric (c : ascii) : bool :=
  is_digit c || Ascii.eqb c "."%char.

Definition has_digit (s : string) : bool :=
  existsb is_digit (list_ascii_of_string s).

Definition flush (cur : string) : list string :=
  if has_digit cur then [cur] else [].

Fixpoint tokens_from (s cur : string) : list string :=
  match s with
  | EmptyString => flush cur
  | String c r =>
      if is_numeric c then tokens_from r (cur +:+ String c "")
      else if is_sign c then (flush cur ++ tokens_from r (String c ""))%list
      else (flush cur ++ tokens_from r "")%list
  end.

Definition printed_constants (explain : string) : option (list float) :=
  mapM decimal_literal (tokens_from explain "").

Definition recompute (explain : string) : option float :=
  cs ← printed_constants explain;
  match cs with
  | [] => None
  | [baseline] => Some (py_round2 baseline)
  | baseline :: factor :: adjustments =>
      Some (py_round2 (fold_left PrimFloat.add adjustments (baseline * factor)%float))
  end.

(** The same recomputation in exact decimal arithmetic, for comparison.
    A decimal is a pair [(n, k)] standing for [n / 10^k]. *)
Definition literal_decimal (s : string) : option (Z * nat) :=
  let '(neg, body) :=
    match s with
    | String "-"%char r => (true, r)
    | String "+"%char r => (false, r)
    | _ => (false, s)
    end in
  '(n, k) ← read_decimal body false 0 O O;
  Some (if neg then - n else n, k).

Definition dec_mul (a b : Z * nat) : Z * nat := (a.1 * b.1, (a.2 + b.2)%nat).

Definition dec_add (a b : Z * nat) : Z * nat :=
  let k := Nat.max a.2 b.2 in
  (a.1 * 10 ^ Z.of_nat (k - a.2) + b.1 * 10 ^ Z.of_nat (k - b.2), k).

(** The number of hundredths nearest to a decimal, ties to even. *)
Definition dec_hundredths (a : Z * nat) : Z :=
  if (a.2 <=? 2)%nat then a.1 * 10 ^ Z.of_nat (2 - a.2)
  else Z.sgn a.1 * div_half_even (Z.abs a.1) (10 ^ Z.of_nat (a.2 - 2)).

Definition recompute_exact (explain : string) : option Z :=
  cs ← mapM literal_decimal (tokens_from explain "");
  match cs with
  | [] => None
  | baseline :: rest =>
      match rest with
      | [] => Some (dec_hundredths baseline)
      | factor :: adjustments =>
          Some (dec_hundredths (fold_left dec_add adjustments (dec_mul baseline factor)))
      end
  end.

(** The number of hundredths a finite float is nearest to. *)
Definition float_hundredths (x : float) : option Z :=
  match Prim2SF x with
  | S754_zero _ => Some 0
  | S754_finite s m e => Some (if s then - hundredths m e else hundredths m e)
  | _ => None
  end.

(** Exact recomputation minus [prob], in hundredths. *)
Definition exact_gap (explain : string) (p : float) : option Z :=
  n ← recompute_exact explain;
  m ← float_hundredths p;
  Some (n - m).

End Explanation.

(** * Properties *)

(** [prob] lies in the closed interval from 0.05 to 0.95 (as binary64
    comparisons with the literals the code uses). *)
Definition in_band (p : float) : Prop :=
  (0.05 <=? p)%float = true /\ (p <=? 0.95)%float = true.

(** A Session is populated once a parsing pass of [on_collect_context] has
    succeeded on it: that is the only place where engines are invoked. *)
Definition populated (str_float : string -> option float) (sess : Session) : Prop :=
  exists sess0 parts kvs,
    parse_context str_float (topic sess0) parts = Some (Vars kvs) /\
    sess = update_context_vars kvs sess0.

Ltac split_ifs :=
  repeat match goal with
         | |- context [if ?b then _ else _] => destruct b
         end.

(** Case analysis of an engine call: the conversions succeed, then every
    threshold comparison is decided, leaving closed numeric goals. *)
Ltac engine_cases :=
  repeat match goal with
         | |- context [mbind _ ?o] =>
             destruct o; [|discriminate]; cbn [mbind option_bind]
         end;
  try match goal with
      | |- context [String.eqb ?o "break"] => destruct (String.eqb o "break")
      end;
  intros [= <-];
  cbv beta iota zeta delta [prob explain actions];
  split_ifs.

(** The calls of [generic_template_engine] in [generate_by_topic]: topic,
    title and baseline. *)
Definition generic_topics : list (string * (string * float)) :=
  [("love", ("💞 感情/关系占卜", 0.55%float));
   ("health", ("🩺 健康/作息占卜", 0.52%float));
   ("growth", ("🧭 自我成长占卜", 0.53%float))].

(** The positions of the numeric fields of each topic's input line, as the
    prompts of [on_micro_q3] describe them. *)
Inductive field_kind := FloatField | IntField.

Definition numeric_fields (t : string) : list (nat * field_kind) :=
  if String.eqb t "career" then [(0, FloatField); (2, FloatField)]%nat
  else if String.eqb t "study" then [(0, FloatField); (1, FloatField); (2, IntField)]%nat
  else if String.eqb t "finance" then [(0, FloatField); (1, FloatField); (2, FloatField)]%nat
  else if String.eqb t "love" then [(1, FloatField)]%nat
  else if String.eqb t "health" then [(0, FloatField); (1, FloatField); (2, IntField)]%nat
  else if String.eqb t "growth" then [(1, FloatField)]%nat
  else [].

(** The field's text has no value of the required numeric type. *)
Definition cannot_convert (str_float : string -> option float) (k : field_kind)
    (p : string) : Prop :=
  match k with
  | FloatField => str_float p = None
  | IntField => int_of_float_text str_float p = None
  end.

(** The two situations in which the rewriting step falls back, with the
    notice the code appends in each. *)
Inductive falls_back (w : World) (base_text : string) : bool -> string -> Prop :=
| no_credentials : falls_back w base_text false no_key_notice
| call_raised e :
    chat w base_text = Failed e -> falls_back w base_text true (failure_notice e).

(** Comparison of ASCII letters without regard to case. *)
Definition lower_ascii (c : ascii) : ascii :=
  let n := N_of_ascii c in
  if ((65 <=? n) && (n <=? 90))%N then ascii_of_N (n + 32) else c.

Fixpoint lower (s : string) : string :=
  match s with
  | EmptyString => EmptyString
  | String c r => String (lower_ascii c) (lower r)
  end.

Definition matches_ignoring_case (x : string) (tokens : list string) : bool :=
  existsb (fun t => String.eqb (lower x) (lower t)) tokens.

(** The lines of a text that are list items ([- ...]). *)
Definition action_lines (text : string) : list string :=
  filter (fun l => String.prefix "- " l = true) (split (ascii_of_N 10) text).

(** The keys that the branch of [on_collect_context] for a topic passes to
    [context_vars.update]. *)
Definition topic_keys (t : option string) : list string :=
  if topic_is t "career" then ["years"; "portfolio"; "cash_buffer_months"]
  else if topic_is t "study" then ["current_score"; "hours_per_week"; "ddl_days"]
  else if topic_is t "finance" then ["exp_years"; "max_drawdown_pct"; "budget_month"]
  else if topic_is t "love" then ["status"; "comm_freq_per_week"; "distance"]
  else if topic_is t "health" then ["sleep_h"; "sport_freq"; "stress"]
  else if topic_is t "growth" then ["goal"; "hours_per_week"; "pain_point"]
  else [].

Definition parsed_topics : list string :=
  ["career"; "study"; "finance"; "love"; "health"; "growth"].




(** A gap of at most one hundredth. *)
Definition within_one (g : option Z) : Prop :=
  exists d, g = Some d /\ -1 <= d <= 1.

(** ** Concrete inputs *)

Module Examples.

Fixpoint read_digits (s : string) (acc : Z) (nd : nat) : option Z :=
  match s with
  | EmptyString => match nd with O => None | _ => Some acc end
  | String c r =>
      if is_digit c then read_digits r (10 * acc + digit_val c) (S nd) else None
  end.

(** Integer literals [[+-]digits], a fragment of what [int(str)] reads. *)
Definition integer_literal (s : string) : option Z :=
  match s with
  | String "-"%char r => Z.opp <$> read_digits r 0 O
  | String "+"%char r => read_digits r 0 O
  | _ => read_digits s 0 O
  end.

Definition quiet : World := mkWorld 0 (fun text => Completed text).

Definition career_asked : Session :=
  set_micro "investment" "time"
    (set_micro "orientation" "stable"
       (set_time_horizon "3m" (set_topic "career" (new_session 1)))).

Definition health_asked : Session :=
  set_micro "investment" "time"
    (set_micro "orientation" "stable"
       (set_time_horizon "1m" (set_topic "health" (new_session 1)))).

(** A rewriting service whose call raises. *)
Definition failing : World := mkWorld 0 (fun _ => Failed "timeout").

Definition career_parts : list string := ["3"; "是"; "4"].

Definition career_vars : list (string * pyval) :=
  [("years", VFloat 3); ("portfolio", VBool true);
   ("cash_buffer_months", VFloat 4)].

Definition career_session : Session := update_context_vars career_vars career_asked.

(** A career run followed, without [/start], by a study run. *)
Definition two_runs : list (update * World) :=
  map (fun u => (u, quiet))
    [Command "start";
     CallbackQuery "topic:career"; CallbackQuery "t:3m";
     CallbackQuery "ori:stable"; CallbackQuery "inv:time";
     TextMessage "3, 是, 4";
     CallbackQuery "topic:study"; CallbackQuery "t:1m";
     CallbackQuery "ori:break"; CallbackQuery "inv:budget";
     TextMessage "68, 10, 45"].

Definition study_session : Session :=
  update_context_vars
    [("current_score", VFloat 68); ("hours_per_week", VFloat 10);
     ("ddl_days", VInt 45)]
    (set_micro "investment" "budget"
       (set_micro "orientation" "break"
          (set_time_horizon "1m" (set_topic "study" career_session)))).


(** A finance Session of a beginner with a low tolerated drawdown. *)
Definition cautious_beginner : Session :=
  update_context_vars
    [("exp_years", VFloat 0.5); ("max_drawdown_pct", VFloat 5);
     ("budget_month", VFloat 3000)]
    (set_topic "finance" (new_session 1)).

(** What the career engine returns on [career_session]. *)
Definition career_result : Result := {|
  title := "🌟 事业/工作占卜";
  horizon := "3m";
  prob := 0.55;
  explain := "基线0.45 × 经验因子1.05 + 作品集+0.08 + 现金缓冲+0.00";
  opportunity := "在现有赛道做垂直深挖，短期更易获得正反馈";
  risk := "过于保守可能错过周期回暖的上车点";
  actions := career_actions_time
|}.

End Examples.

(** ** Vocabulary for the conversation flow *)





(** The Session as the four callbacks of a run leave it. *)
Definition answered (t h o i : string) (sess : Session) : Session :=
  set_micro "investment" i
    (set_micro "orientation" o (set_time_horizon h (set_topic t sess))).

(** The four callbacks of a run, each with what the world answers. *)
Definition questions (t h o i : string) (w : World) : list (update * World) :=
  [(CallbackQuery ("topic:" +:+ t), w);
   (CallbackQuery ("t:" +:+ h), w);
   (CallbackQuery ("ori:" +:+ o), w);
   (CallbackQuery ("inv:" +:+ i), w)].

(** The same Session with nothing in contextVars. *)
Definition without_context_vars (s : Session) : Session :=
  mkSession (user_id s) (topic s) (question s) (time_horizon s) (micro s) ∅.

(** The transitions of the conversation: what handling one update can do
    to the conversation state and the stored Session. *)
Inductive transition (uid : Z) (b : bot) : bot -> Prop :=
| tr_stay : transition uid b b
| tr_menu : transition uid b (mkBot (Some CHOOSING_TOPIC) (user_data b))
| tr_end : transition uid b (mkBot None (user_data b))
| tr_start : transition uid b (mkBot (Some CHOOSING_TOPIC) (Some (new_session uid)))
| tr_oracle :
    conv b = Some CHOOSING_TOPIC ->
    transition uid b
      (mkBot (Some CHOOSING_TOPIC)
         (Some (set_topic "oracle" (default (new_session uid) (user_data b)))))
| tr_topic t :
    conv b = Some CHOOSING_TOPIC ->
    t <> "oracle" ->
    transition uid b
      (mkBot (Some MICRO_Q1)
         (Some (set_topic t (default (new_session uid) (user_data b)))))
| tr_horizon sess h :
    conv b = Some MICRO_Q1 ->
    user_data b = Some sess ->
    transition uid b (mkBot (Some MICRO_Q2) (Some (set_time_horizon h sess)))
| tr_orientation sess v :
    conv b = Some MICRO_Q2 ->
    user_data b = Some sess ->
    transition uid b (mkBot (Some MICRO_Q3) (Some (set_micro "orientation" v sess)))
| tr_investment sess v :
    conv b = Some MICRO_Q3 ->
    user_data b = Some sess ->
    transition uid b (mkBot (Some COLLECT_CONTEXT) (Some (set_micro "investment" v sess)))
| tr_result sess kvs :
    conv b = Some COLLECT_CONTEXT ->
    user_data b = Some sess ->
    map fst kvs = topic_keys (topic sess) ->
    transition uid b (mkBot (Some CHOOSING_TOPIC) (Some (update_context_vars kvs sess))).

(** ** The topic menu *)

(** The display names of the topics. *)
Definition TOPICS : gmap string string :=
  list_to_map
    [("career", "🌟 事业/工作"); ("love", "💞 感情/关系");
     ("study", "📚 学业/考试"); ("finance", "💰 财务/投资");
     ("health", "🩺 健康/作息"); ("growth", "🧭 自我成长");
     ("oracle", "🃏 随缘抽签")].

Record button := mkButton {
  label : string;
  callback_data : string
}.

(** The rows of buttons under the menu; [TOPICS[k]] raises KeyError
    ([None]) for an absent key. *)
Definition main_menu_markup : option (list (list button)) :=
  career ← TOPICS !! "career";
  love ← TOPICS !! "love";
  study ← TOPICS !! "study";
  finance ← TOPICS !! "finance";
  health ← TOPICS !! "health";
  growth ← TOPICS !! "growth";
  oracle ← TOPICS !! "oracle";
  Some [[mkButton career "topic:career"; mkButton love "topic:love"];
        [mkButton study "topic:study"; mkButton finance "topic:finance"];
        [mkButton health "topic:health"; mkButton growth "topic:growth"];
        [mkButton oracle "topic:oracle"]].

(** ** Further concrete inputs *)

Module Scenarios.

(** [/start] and the four callbacks of a career run. *)
Definition asking : list (update * World) := take 5 Examples.two_runs.

Definition collecting : bot :=
  mkBot (Some COLLECT_CONTEXT) (Some Examples.career_asked).


(** A Session whose topic no branch of the parser knows. *)
Definition unknown_topic : Session := set_topic "xyz" (new_session 1).

(** [career_session] with other answers to the three questions. *)
Definition career_session_other_answers : Session :=
  set_micro "investment" "budget"
    (set_micro "orientation" "break"
       (set_time_horizon "6m" Examples.career_session)).

Definition career_result_other_answers : Result := {|
  title := "🌟 事业/工作占卜";
  horizon := "6m";
  prob := 0.55;
  explain := "基线0.45 × 经验因子1.05 + 作品集+0.08 + 现金缓冲+0.00";
  opportunity := "更大胆的岗位跨度/地域探索可能给你带来意外窗口";
  risk := "过度追新可能忽略稳定的成长曲线";
  actions := career_actions_budget
|}.

(** What the career engine returns on [career_session] without the
    portfolio. *)
Definition career_result_no_portfolio : Result := {|
  title := "🌟 事业/工作占卜";
  horizon := "3m";
  prob := 0.47;
  explain := "基线0.45 × 经验因子1.05 + 作品集+0.00 + 现金缓冲+0.00";
  opportunity := "在现有赛道做垂直深挖，短期更易获得正反馈";
  risk := "过于保守可能错过周期回暖的上车点";
  actions := career_actions_time
|}.

(** A career Session whose years of experience are NaN. *)
Definition nan_years : Session :=
  update_context_vars
    [("years", VFloat PrimFloat.nan); ("portfolio", VBool false);
     ("cash_buffer_months", VFloat 4)]
    Examples.career_asked.

Definition nan_years_result : Result := {|
  title := "🌟 事业/工作占卜";
  horizon := "3m";
  prob := 0.5;
  explain := "基线0.45 × 经验因子1.10 + 作品集+0.00 + 现金缓冲+0.00";
  opportunity := "在现有赛道做垂直深挖，短期更易获得正反馈";
  risk := "过于保守可能错过周期回暖的上车点";
  actions := career_actions_time
|}.

(** The entries of an earlier career pass. *)
Definition earlier_parts : list string := ["1"; "否"; "0"].

Definition earlier_vars : list (string * pyval) :=
  [("years", VFloat 1); ("portfolio", VBool false);
   ("cash_buffer_months", VFloat 0)].

(** A love Session at the point where the context line is awaited. *)
Definition love_asked : Session :=
  set_micro "investment" "time"
    (set_micro "orientation" "stable"
       (set_time_horizon "3m" (set_topic "love" (new_session 1)))).

End Scenarios.

(** * The cell translation of [trans_excel.py]

    The model's requests are inputs: each call of [translate_text] is given
    what the chat-completion request would come to if it is made.  The
    token count of a text and the limit of a run are parameters. *)

Module TransExcel.

(** The two globals a run works with. *)
Record store := mkStore {
  used_tokens : Z;
  translation_cache : gmap (string * string) string
}.

(** What the body of the [try] block comes to: the message content of the
    response, or an exception [e] with text [str(e)]. *)
Inductive completion :=
| Returned (content : string)
| Raised (e : string).

Definition limit_notice : string := "[已达到翻译上限]".

Definition error_notice (e : string) : string := "[错误]: " +:+ e.

(** [re.search(r'[a-zA-Z]', text)]: an ASCII letter occurs in the text (in
    UTF-8 such a byte is never part of a longer character). *)
Definition is_ascii_letter (c : ascii) : bool :=
  let n := N_of_ascii c in
  ((97 <=? n) && (n <=? 122) || (65 <=? n) && (n <=? 90))%N.

Fixpoint has_letter (s : string) : bool :=
  match s with
  | EmptyString => false
  | String c r => is_ascii_letter c || has_letter r
  end.

Section Translate.

Variable count_tokens : string -> Z.
Variable MAX_TOKENS : Z.

(** The type of the cell values that are not strings. *)
Variable other : Type.

Definition prompt_of (text : string) : string :=
  text +:+ nl +:+ "——仅译为中文：".

Definition input_tokens_of (text task_context : string) : Z :=
  count_tokens (prompt_of text) + count_tokens task_context.

(** [translate_text(text, task_context)]; [text] is [None] or a string. *)
Definition translate_text (o : completion) (text : option string)
    (task_context : string) (st : store) : string * store :=
  match text with
  | None => ("", st)
  | Some text =>
      if String.eqb (strip text) "" then (text, st)
      else if negb (has_letter text) then (text, st)
      else
        match translation_cache st !! (text, task_context) with
        | Some cached => (cached, st)
        | None =>
            let input_tokens := input_tokens_of text task_context in
            if MAX_TOKENS <? used_tokens st + input_tokens then (limit_notice, st)
            else
              match o with
              | Returned result =>
                  let output_tokens := count_tokens result in
                  (result,
                   mkStore (used_tokens st + (input_tokens + output_tokens))
                     (<[(text, task_context) := result]> (translation_cache st)))
              | Raised e => (error_notice e, st)
              end
        end
  end.

Inductive cell_value :=
| Text (s : string)
| Other (v : other).

(** One round of the loop over the cells. *)
Definition translate_cell (o : completion) (v : cell_value)
    (task_context : string) (st : store) : cell_value * store :=
  match v with
  | Text s =>
      let '(translated, st') := translate_text o (Some s) task_context st in
      (Text translated, st')
  | Other _ => (v, st)
  end.

(** The loop of [process_workbook]: the cells in order, each with the
    outcome of the request it may make; the loop is left once the tokens
    used reach the limit, and the cells after that keep their values. *)
Fixpoint translate_cells (cells : list (cell_value * completion))
    (task_context : string) (st : store) : list cell_value * store :=
  match cells with
  | [] => ([], st)
  | (v, o) :: rest =>
      let '(v', st') := translate_cell o v task_context st in
      if MAX_TOKENS <=? used_tokens st' then (v' :: map fst rest, st')
      else
        let '(vs, st'') := translate_cells rest task_context st' in
        (v' :: vs, st'')
  end.

(** [process_workbook] on the cells of the active sheet, with the context
    [detect_sheet_context] returned: the count of used tokens starts at 0,
    the cache is the one earlier runs left. *)
Definition process_workbook (cells : list (cell_value * completion))
    (task_context : string) (st : store) : list cell_value * store :=
  translate_cells cells task_context (mkStore 0 (translation_cache st)).

(** A cell for which no request can be made: not a string, blank, without
    a letter, or with its translation in the cache. *)
Definition needs_no_request (cache : gmap (string * string) string)
    (task_context : string) (v : cell_value) : Prop :=
  match v with
  | Other _ => True
  | Text s =>
      strip s = "" \/ has_letter s = false \/ is_Some (cache !! (s, task_context))
  end.

(** A cell that [translate_text] returns as it is. *)
Definition kept_as_is (v : cell_value) : Prop :=
  match v with
  | Other _ => True
  | Text s => strip s = "" \/ has_letter s = false
  end.

End Translate.

Arguments Text {other} s.
Arguments Other {other} v.

(** Concrete inputs: one token per byte, a limit of 100 tokens. *)
Definition bytes_count (s : string) : Z := Z.of_nat (String.length s).

Definition sheet : list (cell_value Z * completion) :=
  [(Text "Name", Returned "名称");
   (Other 42, Raised "unused");
   (Text "数量", Raised "unused");
   (Text "Price", Returned "价格")].

Definition empty_store : store := mkStore 0 ∅.

End TransExcel.

Section DictLemmas.
Context {V : Type}.
Implicit Types (d : gmap string V) (k : string) (v : V).

Lemma dict_get_insert_eq d k v dflt : dict_get (<[k := v]> d) k dflt = v.
Proof. unfold dict_get. by rewrite lookup_insert_eq. Qed.

Lemma dict_get_insert_ne d k k' v dflt :
  k' <> k -> dict_get (<[k' := v]> d) k dflt = dict_get d k dflt.
Proof. intros. unfold dict_get. by rewrite lookup_insert_ne. Qed.

Lemma dict_update_cons d k v kvs :
  dict_update d ((k, v) :: kvs) = dict_update (<[k := v]> d) kvs.
Proof. reflexivity. Qed.


(** Keys outside the written ones keep their entry. *)
Lemma dict_update_lookup_other d kvs k :
  k ∉ map fst kvs -> dict_update d kvs !! k = d !! k.
Proof.
  revert d. induction kvs as [|[k' v'] kvs IH]; intros d Hk; [done|].
  rewrite dict_update_cons, IH by set_solver.
  apply lookup_insert_ne. set_solver.
Qed.

End DictLemmas.

Ltac dict_lookup :=
  cbn [update_context_vars context_vars dict_update fold_left fst snd];
  repeat (rewrite dict_get_insert_eq || rewrite dict_get_insert_ne by discriminate).

Section EngineLemmas.

Variable str_float : string -> option float.
Variable str_int : string -> option Z.

Lemma career_prob_in_band sess res :
  career_rule_engine str_float sess = Some res -> in_band (prob res).
Proof.
  unfold career_rule_engine. engine_cases.
  all: split; vm_compute; reflexivity.
Qed.

Lemma study_prob_in_band sess res :
  study_rule_engine str_float str_int sess = Some res -> in_band (prob res).
Proof.
  unfold study_rule_engine. engine_cases.
  all: split; vm_compute; reflexivity.
Qed.

Lemma finance_prob_in_band sess res :
  finance_rule_engine str_float sess = Some res -> in_band (prob res).
Proof.
  unfold finance_rule_engine. engine_cases.
  all: split; vm_compute; reflexivity.
Qed.




End EngineLemmas.

Section AfterParse.

Variable str_float : string -> option float.
Variable str_int : string -> option Z.

Lemma career_returns sess y c :
  py_float str_float (dict_get (context_vars sess) "years" (VInt 0)) = Some y ->
  py_float str_float (dict_get (context_vars sess) "cash_buffer_months" (VInt 0)) = Some c ->
  is_Some (career_rule_engine str_float sess).
Proof.
  intros Hy Hc. unfold career_rule_engine. rewrite Hy, Hc. cbn [mbind option_bind].
  destruct (String.eqb _ "break"); eauto.
Qed.

Lemma study_returns sess a b n :
  py_float str_float (dict_get (context_vars sess) "current_score" (VInt 0)) = Some a ->
  py_float str_float (dict_get (context_vars sess) "hours_per_week" (VInt 0)) = Some b ->
  py_int str_int (dict_get (context_vars sess) "ddl_days" (VInt 30)) = Some n ->
  is_Some (study_rule_engine str_float str_int sess).
Proof.
  intros Ha Hb Hn. unfold study_rule_engine. rewrite Ha, Hb, Hn. eauto.
Qed.

Lemma finance_returns sess a b c :
  py_float str_float (dict_get (context_vars sess) "exp_years" (VInt 0)) = Some a ->
  py_float str_float (dict_get (context_vars sess) "max_drawdown_pct" (VInt 10)) = Some b ->
  py_float str_float (dict_get (context_vars sess) "budget_month" (VInt 0)) = Some c ->
  is_Some (finance_rule_engine str_float sess).
Proof.
  intros Ha Hb Hc. unfold finance_rule_engine. rewrite Ha, Hb, Hc. eauto.
Qed.

(** After a successful parsing pass the topic has an engine and the engine
    returns: the values it converts are the numbers just written. *)
Lemma engine_returns_after_parse sess parts kvs :
  parse_context str_float (topic sess) parts = Some (Vars kvs) ->
  exists eng res,
    engine_of_topic str_float str_int (topic sess) = Some eng /\
    eng (update_context_vars kvs sess) = Some res.
Proof.
  unfold parse_context, engine_of_topic.
  repeat match goal with
         | |- context [topic_is ?t ?n] => destruct (topic_is t n)
         end; try discriminate.
  all: repeat match goal with
         | |- context [mbind _ ?o] =>
             destruct o; [|discriminate]; cbn [mbind option_bind]
         end; intros [= <-].
  - edestruct (career_returns (update_context_vars
      [("years", VFloat f); ("portfolio", VBool (mem s affirmative_tokens));
       ("cash_buffer_months", VFloat f0)] sess)) as [res Hres];
      [dict_lookup; reflexivity..|]. eauto.
  - edestruct (study_returns (update_context_vars
      [("current_score", VFloat f); ("hours_per_week", VFloat f0);
       ("ddl_days", VInt z)] sess)) as [res Hres];
      [dict_lookup; reflexivity..|]. eauto.
  - edestruct (finance_returns (update_context_vars
      [("exp_years", VFloat f); ("max_drawdown_pct", VFloat f0);
       ("budget_month", VFloat f1)] sess)) as [res Hres];
      [dict_lookup; reflexivity..|]. eauto.
  - eauto.
  - eauto.
  - eauto.
Qed.
End AfterParse.

Section EngineTheorems.

Variable str_float : string -> option float.
Variable str_int : string -> option Z.

Lemma engine_result_in_band t eng sess res :
  engine_of_topic str_float str_int t = Some eng ->
  eng sess = Some res ->
  in_band (prob res).
Proof.
  unfold engine_of_topic.
  repeat match goal with
         | |- context [topic_is t ?n] => destruct (topic_is t n)
         end; intros [= <-];
    eauto using career_prob_in_band, study_prob_in_band, finance_prob_in_band.
  all: intros [= <-]; split; vm_compute; reflexivity.
Qed.

(** C1. For every topic with a rule engine (career, study, finance and
    the generic engine of love, health, growth) and every populated
    Session, the engine returns a result whose [prob] lies in the closed
    interval from 0.05 to 0.95. *)
Theorem rule_engine_prob_in_band sess :
  populated str_float sess ->
  exists eng res,
    engine_of_topic str_float str_int (topic sess) = Some eng /\
    eng sess = Some res /\
    in_band (prob res).
Proof.
  intros (sess0 & parts & kvs & Hparse & ->).
  destruct (engine_returns_after_parse str_float str_int _ _ _ Hparse)
    as (eng & res & Heng & Hres).
  exists eng, res. split; [exact Heng|]. split; [exact Hres|].
  exact (engine_result_in_band _ _ _ _ Heng Hres).
Qed.


(** C3. A Session whose topic is love, health or growth is dispatched to
    the generic template engine, and the result's [prob] is exactly the
    baseline of the call — 0.55 for love, 0.52 for health, 0.53 for
    growth — whatever contextVars holds. *)
Theorem generic_topics_fixed_prob sess t ttl baseline :
  topic sess = Some t ->
  (t, (ttl, baseline)) ∈ generic_topics ->
  engine_of_topic str_float str_int (topic sess)
    = Some (fun s => Some (generic_template_engine s ttl baseline)) /\
  generate_by_topic str_float str_int sess
    = Some (assemble_base_markdown (generic_template_engine sess ttl baseline)) /\
  prob (generic_template_engine sess ttl baseline) = baseline.
Proof.
  intros Ht Hin. unfold generate_by_topic. rewrite Ht.
  unfold generic_topics in Hin.
  repeat (apply elem_of_cons in Hin as [[= -> -> ->]|Hin]);
    [| | |by apply elem_of_nil in Hin].
  all: split; [reflexivity|]; split; [reflexivity|]; vm_compute; reflexivity.
Qed.

End EngineTheorems.

Lemma rule_engine_prob_in_band_witness :
  exists eng res,
    engine_of_topic decimal_literal Examples.integer_literal
      (topic Examples.career_session) = Some eng /\
    eng Examples.career_session = Some res /\
    in_band (prob res).
Proof.
  apply rule_engine_prob_in_band.
  exists Examples.career_asked, Examples.career_parts, Examples.career_vars.
  split; [vm_compute; reflexivity | reflexivity].
Defined.


Lemma generic_topics_fixed_prob_witness :
  engine_of_topic decimal_literal Examples.integer_literal
    (topic (set_topic "love" Examples.career_session))
  = Some (fun s => Some (generic_template_engine s "💞 感情/关系占卜" 0.55)) /\
  generate_by_topic decimal_literal Examples.integer_literal
    (set_topic "love" Examples.career_session)
  = Some (assemble_base_markdown
            (generic_template_engine (set_topic "love" Examples.career_session)
               "💞 感情/关系占卜" 0.55)) /\
  prob (generic_template_engine (set_topic "love" Examples.career_session)
          "💞 感情/关系占卜" 0.55) = 0.55%float.
Proof.
  apply (generic_topics_fixed_prob decimal_literal Examples.integer_literal
           (set_topic "love" Examples.career_session) "love").
  - reflexivity.
  - unfold generic_topics. apply elem_of_cons. left. reflexivity.
Defined.

Lemma or_text_some_empty text : or_text (Some text) "" = text.
Proof. unfold or_text. destruct (String.eqb_spec text ""); congruence. Qed.

Lemma field_or_text parts i dflt :
  field_or Some parts i dflt = Some (default dflt (parts !! i)).
Proof. unfold field_or. by destruct (parts !! i). Qed.

Lemma prefix_append s t : String.prefix s (s +:+ t) = true.
Proof.
  induction s as [|c s IH]; simpl.
  - by destruct t.
  - destruct (ascii_dec c c); [exact IH | congruence].
Qed.

Lemma mem_elem_of x l : mem x l = true <-> x ∈ l.
Proof.
  unfold mem. rewrite existsb_exists. split.
  - intros (y & Hy & ->%String.eqb_eq). by apply list_elem_of_In.
  - intros Hx. exists x. split; [by apply list_elem_of_In | apply String.eqb_refl].
Qed.

Section ParserTheorems.

Variable str_float : string -> option float.
Variable str_int : string -> option Z.
Variable USE_LLM : bool.
Variable uid : Z.

Lemma parse_fails_on_bad_number t parts i k p :
  (i, k) ∈ numeric_fields t ->
  parts !! i = Some p ->
  cannot_convert str_float k p ->
  parse_context str_float (Some t) parts = None.
Proof.
  intros Hin Hp Hbad. unfold numeric_fields in Hin.
  unfold parse_context, topic_is.
  repeat match type of Hin with
         | context [String.eqb t ?n] => destruct (String.eqb t n)
         end; [..|by apply elem_of_nil in Hin].
  all: repeat (apply elem_of_cons in Hin as [[= -> ->]|Hin]);
    try (by apply elem_of_nil in Hin).
  all: cbn in Hbad; unfold field_or; rewrite ?Hp, ?Hbad.
  all: cbn [mbind option_bind];
    repeat match goal with
           | |- context [mbind _ ?o] =>
               destruct o; cbn [mbind option_bind]; try reflexivity
           | |- context [match ?x with _ => _ end] =>
               destruct x; cbn [mbind option_bind]; try reflexivity
           end.
  all: reflexivity.
Qed.

(** A failed parse: the handler answers with the retry prompt, asks for
    [COLLECT_CONTEXT] again and leaves the Session as it was. *)
Lemma on_collect_context_failed w sess text :
  parse_context str_float (topic sess) (parts_of (strip (or_text text ""))) = None ->
  on_collect_context str_float str_int USE_LLM w (Some sess) text
  = Some (mkReaction (Next COLLECT_CONTEXT) (Some sess) [retry_prompt]).
Proof. intros H. unfold on_collect_context. by rewrite H. Qed.

(** A successful parse: the entries are written in one update, the
    engine and the renderer run, and the conversation returns to
    [CHOOSING_TOPIC]. *)
Lemma on_collect_context_parsed w sess text kvs :
  parse_context str_float (topic sess) (parts_of (strip (or_text text ""))) = Some (Vars kvs) ->
  exists final_text,
    on_collect_context str_float str_int USE_LLM w (Some sess) text
    = Some (mkReaction (Next CHOOSING_TOPIC) (Some (update_context_vars kvs sess))
              [received_notice; final_text; another_prompt]).
Proof.
  intros H. unfold on_collect_context. rewrite H.
  destruct (engine_returns_after_parse str_float str_int _ _ _ H)
    as (eng & res & Heng & Hres).
  unfold generate_by_topic.
  change (topic (update_context_vars kvs sess)) with (topic sess).
  rewrite Heng, Hres. cbn [mbind option_bind]. eauto.
Qed.

(** C4. In state [COLLECT_CONTEXT], a text one of whose numeric fields
    cannot be converted makes the whole parse fail: no exception leaves
    the handler, the retry prompt is sent, the conversation stays in
    [COLLECT_CONTEXT] and the Session is unchanged. *)
Theorem malformed_number_keeps_collecting w sess text t i k p :
  topic sess = Some t ->
  (i, k) ∈ numeric_fields t ->
  parts_of (strip text) !! i = Some p ->
  cannot_convert str_float k p ->
  parse_context str_float (topic sess) (parts_of (strip text)) = None /\
  step str_float str_int USE_LLM uid
    (mkBot (Some COLLECT_CONTEXT) (Some sess)) (TextMessage text, w)
  = Some (mkBot (Some COLLECT_CONTEXT) (Some sess), [retry_prompt]).
Proof.
  intros Ht Hin Hp Hbad.
  assert (parse_context str_float (topic sess) (parts_of (strip text)) = None) as Hfail
    by (rewrite Ht; eauto using parse_fails_on_bad_number).
  split; [exact Hfail|].
  unfold step, dispatch. cbn [fst snd conv user_data state_handlers].
  rewrite on_collect_context_failed by (by rewrite or_text_some_empty).
  reflexivity.
Qed.

(** C5 (amended). When the rewriting service is unavailable (no
    credentials) or its call raises, the rendering function returns the
    renderer output followed by a parenthesised notice — a fixed one
    without credentials, one quoting the error after a failed call; the
    renderer output itself is kept in full as the beginning of the
    returned text. *)
Theorem fallback_keeps_base_text w base_text persona use_llm notice :
  falls_back w base_text use_llm notice ->
  render_with_llm_or_plain use_llm w base_text persona = base_text +:+ notice /\
  String.prefix base_text (render_with_llm_or_plain use_llm w base_text persona) = true.
Proof.
  intros Hfb.
  assert (render_with_llm_or_plain use_llm w base_text persona = base_text +:+ notice) as ->.
  { destruct Hfb as [|e He]; unfold render_with_llm_or_plain; cbn [negb];
      [reflexivity | by rewrite He]. }
  split; [reflexivity | apply prefix_append].
Qed.

(** C6 (amended). For a career input whose parse succeeds, the stored
    [portfolio] flag is true exactly when the second field, stripped of
    surrounding whitespace, is literally one of the six tokens 是, 有,
    yes, Yes, y, Y (the comparison is case-sensitive); any other value,
    and a missing second field, give false. *)
Theorem career_portfolio_exact_tokens w sess text kvs :
  topic sess = Some "career" ->
  parse_context str_float (topic sess) (parts_of (strip (or_text text ""))) = Some (Vars kvs) ->
  exists sess' final_text b,
    on_collect_context str_float str_int USE_LLM w (Some sess) text
    = Some (mkReaction (Next CHOOSING_TOPIC) (Some sess')
              [received_notice; final_text; another_prompt]) /\
    context_vars sess' !! "portfolio" = Some (VBool b) /\
    (b = true <->
     default "否" (parts_of (strip (or_text text "")) !! 1%nat)
       ∈ ["是"; "有"; "yes"; "Yes"; "y"; "Y"]).
Proof.
  intros Ht Hparse.
  destruct (on_collect_context_parsed w _ _ _ Hparse) as [final_text Hrun].
  rewrite Ht in Hparse. unfold parse_context in Hparse. cbn [topic_is] in Hparse.
  change (String.eqb "career" "career") with true in Hparse. cbv iota in Hparse.
  set (parts := parts_of _) in *.
  rewrite field_or_text in Hparse.
  destruct (field_or str_float parts 0 _) as [years|]; [|discriminate].
  destruct (field_or str_float parts 2 _) as [cash|]; [|discriminate].
  cbn in Hparse. injection Hparse as <-.
  eexists _, final_text, _. split; [exact Hrun|].
  split; [|apply mem_elem_of].
  cbn [update_context_vars context_vars dict_update fold_left fst snd].
  rewrite lookup_insert_ne by discriminate. apply lookup_insert_eq.
Qed.

(** C10. For a health input whose parse succeeds, the stored [stress] is
    the integer read from the third field (3 when the field is missing)
    clamped into the closed interval from 1 to 5: values outside the
    range are brought to the nearest bound, not rejected. *)
Theorem health_stress_clamped w sess text kvs :
  topic sess = Some "health" ->
  parse_context str_float (topic sess) (parts_of (strip (or_text text ""))) = Some (Vars kvs) ->
  exists sess' final_text n,
    on_collect_context str_float str_int USE_LLM w (Some sess) text
    = Some (mkReaction (Next CHOOSING_TOPIC) (Some sess')
              [received_notice; final_text; another_prompt]) /\
    field_or (int_of_float_text str_float)
      (parts_of (strip (or_text text ""))) 2 3 = Some n /\
    context_vars sess' !! "stress" = Some (VInt (Z.max 1 (Z.min n 5))) /\
    1 <= Z.max 1 (Z.min n 5) <= 5.
Proof.
  intros Ht Hparse.
  destruct (on_collect_context_parsed w _ _ _ Hparse) as [final_text Hrun].
  rewrite Ht in Hparse. unfold parse_context in Hparse. cbn [topic_is] in Hparse.
  repeat match type of Hparse with
         | context [String.eqb "health" ?n] =>
             let b := eval vm_compute in (String.eqb "health" n) in
             change (String.eqb "health" n) with b in Hparse
         end.
  cbv iota in Hparse.
  set (parts := parts_of _) in *.
  destruct (field_or str_float parts 0 _) as [sleep_h|]; [|discriminate].
  destruct (field_or str_float parts 1 _) as [sport|]; [|discriminate].
  destruct (field_or (int_of_float_text str_float) parts 2 3) as [n|]; [|discriminate].
  cbn in Hparse. injection Hparse as <-.
  eexists _, final_text, n. split; [exact Hrun|]. split; [reflexivity|].
  split; [|lia].
  cbn [update_context_vars context_vars dict_update fold_left fst snd].
  apply lookup_insert_eq.
Qed.

End ParserTheorems.

Lemma malformed_number_keeps_collecting_witness :
  parse_context decimal_literal (topic Examples.career_asked)
    (parts_of (strip "x, 是, 4")) = None /\
  step decimal_literal Examples.integer_literal false 1
    (mkBot (Some COLLECT_CONTEXT) (Some Examples.career_asked))
    (TextMessage "x, 是, 4", Examples.quiet)
  = Some (mkBot (Some COLLECT_CONTEXT) (Some Examples.career_asked), [retry_prompt]).
Proof.
  apply (malformed_number_keeps_collecting decimal_literal Examples.integer_literal
           false 1 Examples.quiet Examples.career_asked "x, 是, 4"
           "career" 0%nat FloatField "x").
  - reflexivity.
  - simpl. left.
  - vm_compute. reflexivity.
  - vm_compute. reflexivity.
Defined.

(** C5, as stated, fails: without credentials the returned text is the
    renderer output with a notice appended, not the renderer output. *)
Lemma fallback_appends_notice :
  falls_back Examples.quiet "结论" false no_key_notice /\
  render_with_llm_or_plain false Examples.quiet "结论" "generic" <> "结论".
Proof.
  split; [constructor|].
  intros H. vm_compute in H. discriminate H.
Qed.

Lemma fallback_keeps_base_text_witness :
  render_with_llm_or_plain true Examples.failing "结论" "generic"
  = "结论" +:+ failure_notice "timeout" /\
  String.prefix "结论"
    (render_with_llm_or_plain true Examples.failing "结论" "generic") = true.
Proof.
  apply (fallback_keeps_base_text Examples.failing "结论" "generic" true
           (failure_notice "timeout")).
  apply call_raised. reflexivity.
Defined.

(** C6, as stated, fails: [YES] matches the token [yes] when case is
    ignored, yet the career parse stores [portfolio = False] for it. *)
Lemma uppercase_yes_parses_false :
  matches_ignoring_case "YES" affirmative_tokens = true /\
  parse_context decimal_literal (Some "career") (parts_of (strip "3, YES, 4"))
  = Some (Vars [("years", VFloat 3); ("portfolio", VBool false);
                ("cash_buffer_months", VFloat 4)]).
Proof. split; vm_compute; reflexivity. Qed.

Lemma career_portfolio_exact_tokens_witness :
  exists sess' final_text b,
    on_collect_context decimal_literal Examples.integer_literal false Examples.quiet
      (Some Examples.career_asked) (Some "3, 是, 4")
    = Some (mkReaction (Next CHOOSING_TOPIC) (Some sess')
              [received_notice; final_text; another_prompt]) /\
    context_vars sess' !! "portfolio" = Some (VBool b) /\
    (b = true <->
     default "否" (parts_of (strip (or_text (Some "3, 是, 4") "")) !! 1%nat)
       ∈ ["是"; "有"; "yes"; "Yes"; "y"; "Y"]).
Proof.
  apply (career_portfolio_exact_tokens decimal_literal Examples.integer_literal
           false Examples.quiet Examples.career_asked (Some "3, 是, 4")
           Examples.career_vars).
  - reflexivity.
  - vm_compute. reflexivity.
Defined.

Lemma health_stress_clamped_witness :
  exists sess' final_text n,
    on_collect_context decimal_literal Examples.integer_literal false Examples.quiet
      (Some Examples.health_asked) (Some "6.5, 1, 9")
    = Some (mkReaction (Next CHOOSING_TOPIC) (Some sess')
              [received_notice; final_text; another_prompt]) /\
    field_or (int_of_float_text decimal_literal)
      (parts_of (strip (or_text (Some "6.5, 1, 9") ""))) 2 3 = Some n /\
    context_vars sess' !! "stress" = Some (VInt (Z.max 1 (Z.min n 5))) /\
    1 <= Z.max 1 (Z.min n 5) <= 5.
Proof.
  apply (health_stress_clamped decimal_literal Examples.integer_literal
           false Examples.quiet Examples.health_asked (Some "6.5, 1, 9")
           [("sleep_h", VFloat 6.5); ("sport_freq", VFloat 1); ("stress", VInt 5)]).
  - reflexivity.
  - vm_compute. reflexivity.
Defined.

(** ** Action lists and the oracle *)

Lemma generate_oracle_draw d sess :
  exists i, (i < 4)%nat /\ generate_oracle d sess = generate_oracle i (new_session 0).
Proof.
  exists (d mod 4)%nat. split; [apply Nat.mod_upper_bound; lia|].
  unfold generate_oracle, random_choice.
  change (length oracle_themes) with 4%nat.
  by rewrite Nat.Div0.mod_mod.
Qed.

Ltac four_draws i Hi :=
  destruct i as [|[|[|[|i]]]]; [| | | |exfalso; lia].

Section ActionTheorems.

Variable str_float : string -> option float.
Variable str_int : string -> option Z.



End ActionTheorems.


(** C8. Selecting topic oracle produces its result at once, from
    [CHOOSING_TOPIC] back to [CHOOSING_TOPIC], whatever Session is stored
    (or none): the text does not depend on the Session, it contains exactly
    one of the four fixed theme strings, and it contains neither the
    renderer's probability label nor any decimal point; the same holds of
    the text as sent when no rewriting is configured. *)
Theorem oracle_needs_no_answers (USE_LLM : bool) (w : World) (uid : Z)
    (ud : option Session) (sess : Session) :
  exists theme hint text,
    (theme, hint) ∈ oracle_themes /\
    generate_oracle (draw w) sess = Some text /\
    on_topic_callback USE_LLM w uid ud "topic:oracle"
    = Some (mkReaction (Next CHOOSING_TOPIC)
              (Some (set_topic "oracle" (default (new_session uid) ud)))
              [oracle_intro;
               render_with_llm_or_plain USE_LLM w text "oracle";
               oracle_followup]) /\
    (forall th, th ∈ map fst oracle_themes -> contains th text = true <-> th = theme) /\
    contains "成功概率" text = false /\
    contains "." text = false /\
    (forall th, th ∈ map fst oracle_themes ->
       contains th (render_with_llm_or_plain false w text "oracle") = true <-> th = theme) /\
    contains "成功概率" (render_with_llm_or_plain false w text "oracle") = false /\
    contains "." (render_with_llm_or_plain false w text "oracle") = false.
Proof.
  assert (forall s, on_topic_callback USE_LLM w uid ud "topic:oracle"
          = base_text ← generate_oracle (draw w) s;
            Some (mkReaction (Next CHOOSING_TOPIC)
              (Some (set_topic "oracle" (default (new_session uid) ud)))
              [oracle_intro;
               render_with_llm_or_plain USE_LLM w base_text "oracle";
               oracle_followup])) as Hcall by reflexivity.
  rewrite (Hcall sess). clear Hcall.
  destruct (generate_oracle_draw (draw w) sess) as (i & Hi & ->).
  four_draws i Hi.
  all: eexists _, _, _; split; [|split; [vm_compute; reflexivity|]].
  1: apply list_elem_of_here.
  2: apply list_elem_of_further, list_elem_of_here.
  3: do 2 apply list_elem_of_further; apply list_elem_of_here.
  4: do 3 apply list_elem_of_further; apply list_elem_of_here.
  all: split; [reflexivity|].
  all: repeat match goal with
              | |- _ /\ _ => split
              | |- _ = false => vm_compute; reflexivity
              end.
  all: intros th Hth; cbn [map fst oracle_themes] in Hth.
  all: repeat (apply elem_of_cons in Hth as [->|Hth]);
    try (by apply elem_of_nil in Hth).
  all: split; [vm_compute; intros H | intros H; vm_compute];
    first [reflexivity | discriminate H].
Qed.

(** ** The contents of contextVars along a conversation *)

Section SessionTheorems.

Variable str_float : string -> option float.
Variable str_int : string -> option Z.
Variable USE_LLM : bool.
Variable uid : Z.

Lemma parse_context_keys t parts kvs :
  parse_context str_float t parts = Some (Vars kvs) ->
  map fst kvs = topic_keys t.
Proof.
  unfold parse_context, topic_keys.
  repeat match goal with
         | |- context [topic_is t ?n] => destruct (topic_is t n)
         end; try discriminate.
  all: repeat match goal with
         | |- context [mbind _ ?o] =>
             destruct o; [|discriminate]; cbn [mbind option_bind]
         end; intros [= <-]; reflexivity.
Qed.














Lemma run_reachable trace b b' :
  reachable str_float str_int USE_LLM uid b ->
  run str_float str_int USE_LLM uid b trace = Some b' ->
  reachable str_float str_int USE_LLM uid b'.
Proof.
  revert b. induction trace as [|uw trace IH]; intros b Hb; cbn [run].
  - by intros [= <-].
  - destruct (step _ _ _ _ b uw) as [[b1 out]|] eqn:Hstep; [|discriminate].
    apply IH. by eapply reach_step.
Qed.


End SessionTheorems.



(** ** Exact decimal arithmetic, for comparison *)

Section ExactRecomputation.

Variable str_float : string -> option float.
Variable str_int : string -> option Z.

(** Recomputing the printed formula in exact decimal arithmetic (ties to
    even) gives [prob] up to one hundredth. *)
Lemma exact_recompute_within_one_hundredth sess eng res :
  engine_of_topic str_float str_int (topic sess) = Some eng ->
  eng sess = Some res ->
  within_one (Explanation.exact_gap (explain res) (prob res)).
Proof.
  unfold engine_of_topic.
  repeat match goal with
         | |- context [topic_is ?t ?n] => destruct (topic_is t n)
         end; intros [= <-].
  - unfold career_rule_engine. engine_cases.
    all: eexists; split; [vm_compute; reflexivity | lia].
  - unfold study_rule_engine. engine_cases.
    all: eexists; split; [vm_compute; reflexivity | lia].
  - unfold finance_rule_engine. engine_cases.
    all: eexists; split; [vm_compute; reflexivity | lia].
  - intros [= <-]. eexists; split; [vm_compute; reflexivity | lia].
  - intros [= <-]. eexists; split; [vm_compute; reflexivity | lia].
  - intros [= <-]. eexists; split; [vm_compute; reflexivity | lia].
Qed.

End ExactRecomputation.

(** The two recomputations can differ at a tie: for a finance Session with
    less than a year of experience and a tolerated drawdown under 8 %, the
    printed formula 0.50 × 0.95 - 0.02 is 0.455 in exact arithmetic, which
    rounds to 0.46, while the binary64 sum lies just below 0.455 and [prob]
    is 0.45. *)
Lemma exact_recompute_differs_at_tie :
  exists res,
    finance_rule_engine decimal_literal Examples.cautious_beginner = Some res /\
    explain res = "基线0.50 × 经验因子0.95 + 风险偏好-0.02" /\
    format_2f false (prob res) = "0.45" /\
    Explanation.recompute (explain res) = Some (prob res) /\
    Explanation.recompute_exact (explain res) = Some 46.
Proof.
  eexists. split; [vm_compute; reflexivity|].
  repeat split; vm_compute; reflexivity.
Qed.

(** ** No exception leaves a handler *)


Lemma generate_oracle_returns d sess : is_Some (generate_oracle d sess).
Proof.
  destruct (generate_oracle_draw d sess) as (i & Hi & ->).
  four_draws i Hi; eexists; vm_compute; reflexivity.
Qed.

Section Totality.

Variable str_float : string -> option float.
Variable str_int : string -> option Z.
Variable USE_LLM : bool.
Variable uid : Z.








End Totality.

(** ** A Session and a topic while questions are pending *)

Section SessionInvariant.
Variable str_float : string -> option float.
Variable str_int : string -> option Z.
Variable USE_LLM : bool.
Variable uid : Z.


End SessionInvariant.

(** * Further properties of the conversation *)

Lemma field_or_none {A} (conv : string -> option A) parts i dflt :
  field_or conv parts i dflt = None ->
  exists p, parts !! i = Some p /\ conv p = None.
Proof. unfold field_or. destruct (parts !! i); [eauto|discriminate]. Qed.

Ltac bad_field E i k :=
  apply field_or_none in E as (p & Hp & Hbad);
  exists i, k, p; split; [cbn; set_solver | split; [exact Hp | exact Hbad]].

Section ParseOutcome.

Variable str_float : string -> option float.

Lemma failed_parse_has_bad_number t parts :
  t ∈ parsed_topics ->
  parse_context str_float (Some t) parts = None ->
  exists i k p,
    (i, k) ∈ numeric_fields t /\ parts !! i = Some p /\
    cannot_convert str_float k p.
Proof.
  intros Ht.
  unfold parsed_topics in Ht.
  repeat (apply elem_of_cons in Ht as [->|Ht]); [..|by apply elem_of_nil in Ht].
  all: unfold parse_context; cbn [topic_is];
    repeat match goal with
           | |- context [String.eqb ?a ?b] =>
               let v := eval vm_compute in (String.eqb a b) in
               change (String.eqb a b) with v
           end; cbv iota; rewrite ?field_or_text; cbn [mbind option_bind].
  - destruct (field_or str_float parts 0 _) eqn:E0; [|intros _; bad_field E0 0%nat FloatField].
    destruct (field_or str_float parts 2 _) eqn:E2; [|intros _; bad_field E2 2%nat FloatField].
    discriminate.
  - destruct (field_or str_float parts 0 _) eqn:E0; [|intros _; bad_field E0 0%nat FloatField].
    destruct (field_or str_float parts 1 _) eqn:E1; [|intros _; bad_field E1 1%nat FloatField].
    destruct (field_or (int_of_float_text str_float) parts 2 _) eqn:E2;
      [|intros _; bad_field E2 2%nat IntField].
    discriminate.
  - destruct (field_or str_float parts 0 _) eqn:E0; [|intros _; bad_field E0 0%nat FloatField].
    destruct (field_or str_float parts 1 _) eqn:E1; [|intros _; bad_field E1 1%nat FloatField].
    destruct (field_or str_float parts 2 _) eqn:E2; [|intros _; bad_field E2 2%nat FloatField].
    discriminate.
  - destruct (field_or str_float parts 1 _) eqn:E1; [|intros _; bad_field E1 1%nat FloatField].
    discriminate.
  - destruct (field_or str_float parts 0 _) eqn:E0; [|intros _; bad_field E0 0%nat FloatField].
    destruct (field_or str_float parts 1 _) eqn:E1; [|intros _; bad_field E1 1%nat FloatField].
    destruct (field_or (int_of_float_text str_float) parts 2 _) eqn:E2;
      [|intros _; bad_field E2 2%nat IntField].
    discriminate.
  - destruct (field_or str_float parts 1 _) eqn:E1; [|intros _; bad_field E1 1%nat FloatField].
    discriminate.
Qed.

(** X8. For each of the six parsed topics the parse of a context line
    fails exactly when one of the numeric fields that are present cannot
    be converted; a text field never makes it fail, and neither does a
    missing field. *)
Theorem parse_fails_iff_bad_number t parts :
  t ∈ parsed_topics ->
  parse_context str_float (Some t) parts = None <->
  exists i k p,
    (i, k) ∈ numeric_fields t /\ parts !! i = Some p /\
    cannot_convert str_float k p.
Proof.
  intros Ht. split.
  - by apply failed_parse_has_bad_number.
  - intros (i & k & p & Hin & Hp & Hbad).
    eauto using parse_fails_on_bad_number.
Qed.

End ParseOutcome.

Section FlowTheorems.

Variable str_float : string -> option float.
Variable str_int : string -> option Z.
Variable USE_LLM : bool.
Variable uid : Z.



(** X2. The commands work in every state: [/start] replaces the stored
    Session by a new one and opens the topic menu, [/menu] opens the topic
    menu and keeps the Session, [/help] answers and changes nothing, and
    [/cancel] ends a conversation in progress, keeping the Session. *)
Theorem commands_in_every_state b w :
  (exists out, step str_float str_int USE_LLM uid b (Command "start", w)
     = Some (mkBot (Some CHOOSING_TOPIC) (Some (new_session uid)), out)) /\
  (exists out, step str_float str_int USE_LLM uid b (Command "menu", w)
     = Some (mkBot (Some CHOOSING_TOPIC) (user_data b), out)) /\
  (exists out, step str_float str_int USE_LLM uid b (Command "help", w)
     = Some (b, out) /\ out <> []) /\
  (forall st, conv b = Some st ->
     exists out, step str_float str_int USE_LLM uid b (Command "cancel", w)
       = Some (mkBot None (user_data b), out)).
Proof.
  destruct b as [c ud]. unfold step, dispatch. cbn [fst snd conv user_data].
  repeat split.
  - eexists. reflexivity.
  - eexists. reflexivity.
  - destruct c as [[]|]; (eexists; split; [reflexivity|discriminate]).
  - intros st ->. destruct st; eexists; reflexivity.
Qed.

(** X3. From the topic menu, the four callbacks of a run — a topic other
    than oracle, then a time horizon, an orientation and an investment, with
    any texts after the prefixes — lead to [COLLECT_CONTEXT], and the
    Session (the stored one, or a new one if none is stored) records
    exactly these four answers; contextVars is not touched. *)
Theorem questions_lead_to_collection b t h o i w :
  conv b = Some CHOOSING_TOPIC ->
  t <> "oracle" ->
  run str_float str_int USE_LLM uid b (questions t h o i w)
  = Some (mkBot (Some COLLECT_CONTEXT)
            (Some (answered t h o i (default (new_session uid) (user_data b))))).
Proof.
  destruct b as [c ud]. cbn [conv user_data]. intros -> Ht%String.eqb_neq.
  unfold questions, run, step, dispatch.
  cbn [fst snd conv user_data state_handlers].
  rewrite (prefix_append "topic:" t).
  unfold on_topic_callback.
  rewrite (prefix_append "topic:" t).
  change (after_colon ("topic:" +:+ t)) with (Some t).
  cbn [mbind option_bind]. rewrite Ht.
  cbn [next session conv user_data state_handlers].
  rewrite (prefix_append "t:" h). unfold on_micro_q1.
  rewrite (prefix_append "t:" h).
  change (after_colon ("t:" +:+ h)) with (Some h).
  cbn [mbind option_bind next session conv user_data state_handlers].
  rewrite (prefix_append "ori:" o). unfold on_micro_q2.
  rewrite (prefix_append "ori:" o).
  change (after_colon ("ori:" +:+ o)) with (Some o).
  cbn [mbind option_bind next session conv user_data state_handlers].
  rewrite (prefix_append "inv:" i). unfold on_micro_q3.
  rewrite (prefix_append "inv:" i).
  change (after_colon ("inv:" +:+ i)) with (Some i).
  reflexivity.
Qed.

Lemma step_transition b uw b' out :
  step str_float str_int USE_LLM uid b uw = Some (b', out) ->
  transition uid b b'.
Proof.
  destruct b as [c ud], uw as [u w]. unfold step, dispatch.
  cbn [conv user_data fst snd]. intros Hstep.
  destruct u as [name|data|text].
  - unfold state_handlers, fallbacks, start, menu, cancel, help_cmd in Hstep.
    destruct (String.eqb name "start"), (String.eqb name "menu"),
      (String.eqb name "cancel"), (String.eqb name "help");
      destruct c as [[]|]; simplify_eq/=;
      first [apply tr_stay | apply tr_start | apply (tr_menu uid (mkBot _ _))
            | apply (tr_end uid (mkBot _ _))].
  - destruct c as [st|]; [|simplify_eq/=; apply tr_stay].
    destruct st; cbn [state_handlers fallbacks] in Hstep.
    + destruct (String.prefix "topic:" data) eqn:Hpre; [|simplify_eq/=; apply tr_stay].
      unfold on_topic_callback in Hstep. rewrite Hpre in Hstep.
      destruct (after_colon data) as [t|]; [|discriminate].
      cbn [mbind option_bind] in Hstep.
      destruct (String.eqb t "oracle") eqn:Ht.
      * apply String.eqb_eq in Ht. subst t.
        destruct (generate_oracle _ _); simplify_eq/=.
        by apply (tr_oracle uid (mkBot _ _)).
      * apply String.eqb_neq in Ht. simplify_eq/=.
        by apply (tr_topic uid (mkBot _ _)).
    + unfold on_micro_q1 in Hstep. destruct ud as [sess|].
      * destruct (String.prefix "t:" data); [|simplify_eq/=; apply tr_stay].
        destruct (after_colon data); simplify_eq/=.
        by apply (tr_horizon uid (mkBot _ _)).
      * destruct (String.prefix "t:" data); simplify_eq/=;
          [apply (tr_menu uid (mkBot _ _)) | apply tr_stay].
    + unfold on_micro_q2 in Hstep. destruct ud as [sess|].
      * destruct (String.prefix "ori:" data); [|simplify_eq/=; apply tr_stay].
        destruct (after_colon data); simplify_eq/=.
        by apply (tr_orientation uid (mkBot _ _)).
      * destruct (String.prefix "ori:" data); simplify_eq/=;
          [apply (tr_menu uid (mkBot _ _)) | apply tr_stay].
    + unfold on_micro_q3 in Hstep. destruct ud as [sess|].
      * destruct (String.prefix "inv:" data); [|simplify_eq/=; apply tr_stay].
        destruct (after_colon data); simplify_eq/=.
        by apply (tr_investment uid (mkBot _ _)).
      * destruct (String.prefix "inv:" data); simplify_eq/=;
          [apply (tr_menu uid (mkBot _ _)) | apply tr_stay].
    + simplify_eq/=. apply tr_stay.
  - destruct c as [st|]; [|simplify_eq/=; apply tr_stay].
    destruct st; cbn [state_handlers fallbacks] in Hstep;
      try (simplify_eq/=; apply tr_stay).
    destruct ud as [sess|]; [|simplify_eq/=; apply (tr_end uid (mkBot _ _))].
    destruct (parse_context str_float (topic sess) (parts_of (strip (or_text (Some text) ""))))
      as [[kvs|]|] eqn:Hparse.
    + destruct (on_collect_context_parsed str_float str_int USE_LLM w _ _ _ Hparse)
        as [final_text Hrun].
      rewrite Hrun in Hstep. simplify_eq/=.
      apply (tr_result uid (mkBot _ _)); eauto using parse_context_keys.
    + unfold on_collect_context in Hstep. rewrite Hparse in Hstep. simplify_eq/=.
      apply (tr_menu uid (mkBot _ _)).
    + rewrite (on_collect_context_failed _ _ _ _ _ _ Hparse) in Hstep.
      simplify_eq/=. apply tr_stay.
Qed.




(** X6. In every reachable state the stored Session carries the identifier
    of the user whose updates are handled, and its [question] field is
    unset: no handler ever writes it. *)
Theorem reachable_session_identity b sess :
  reachable str_float str_int USE_LLM uid b ->
  user_data b = Some sess ->
  user_id sess = uid /\ question sess = None.
Proof.
  intros Hreach. revert sess.
  induction Hreach as [|b uw b' out _ IH Hstep]; [discriminate|].
  intros sess' Hud'.
  destruct (step_transition _ _ _ _ Hstep)
    as [| | | |Hc|t Hc Ht|sess h Hc Hud|sess v Hc Hud|sess v Hc Hud|sess kvs Hc Hud Hk];
    cbn [user_data] in Hud'; eauto; try (injection Hud' as <-).
  all: try (destruct (user_data b) as [sess0|]).
  all: cbn; eauto.
Qed.

Lemma topic_is_false t n : t <> Some n -> topic_is t n = false.
Proof.
  destruct t as [s|]; [|reflexivity]. cbn. intros H.
  apply String.eqb_neq. congruence.
Qed.

(** X7. A topic that is none of the six parsed ones (reachable through a
    callback such as [topic:xyz]) is asked all three questions, is shown
    the generic prompt, and is turned down only when the context line
    arrives: whatever the text, the unsupported notice is sent, the topic
    menu reopens and the Session is left as it was. *)
Theorem unknown_topic_rejected_at_collection w sess text :
  (forall n, n ∈ parsed_topics -> topic sess <> Some n) ->
  context_prompt (topic sess) = "请按提示补充信息" /\
  step str_float str_int USE_LLM uid
    (mkBot (Some COLLECT_CONTEXT) (Some sess)) (TextMessage text, w)
  = Some (mkBot (Some CHOOSING_TOPIC) (Some sess), [unsupported_notice]).
Proof.
  intros Hnot.
  assert (forall n, n ∈ parsed_topics -> topic_is (topic sess) n = false) as Hno
    by (intros n Hn; apply topic_is_false; auto).
  assert (topic_is (topic sess) "career" = false) as H1 by (apply Hno; set_solver).
  assert (topic_is (topic sess) "study" = false) as H2 by (apply Hno; set_solver).
  assert (topic_is (topic sess) "finance" = false) as H3 by (apply Hno; set_solver).
  assert (topic_is (topic sess) "love" = false) as H4 by (apply Hno; set_solver).
  assert (topic_is (topic sess) "health" = false) as H5 by (apply Hno; set_solver).
  assert (topic_is (topic sess) "growth" = false) as H6 by (apply Hno; set_solver).
  split.
  - unfold context_prompt. by rewrite H1, H2, H3, H4, H5, H6.
  - unfold step, dispatch. cbn [fst snd conv user_data state_handlers].
    unfold on_collect_context, parse_context.
    by rewrite H1, H2, H3, H4, H5, H6.
Qed.

(** X9. In [COLLECT_CONTEXT], for a Session whose topic is one of the six
    parsed ones, a context line all of whose present numeric fields convert
    is always answered: the parsed entries are written, the topic's engine
    returns a result, the reply is the rendering of that result (passed
    through the rewriting step) between the two fixed notices, and the topic
    menu reopens. *)
Theorem well_formed_line_gets_a_result w sess text t :
  topic sess = Some t ->
  t ∈ parsed_topics ->
  (forall i k p,
      (i, k) ∈ numeric_fields t ->
      parts_of (strip text) !! i = Some p ->
      ~ cannot_convert str_float k p) ->
  exists kvs eng res,
    parse_context str_float (topic sess) (parts_of (strip text)) = Some (Vars kvs) /\
    engine_of_topic str_float str_int (topic sess) = Some eng /\
    eng (update_context_vars kvs sess) = Some res /\
    step str_float str_int USE_LLM uid
      (mkBot (Some COLLECT_CONTEXT) (Some sess)) (TextMessage text, w)
    = Some (mkBot (Some CHOOSING_TOPIC) (Some (update_context_vars kvs sess)),
            [received_notice;
             render_with_llm_or_plain USE_LLM w (assemble_base_markdown res)
               (or_text (topic sess) "generic");
             another_prompt]).
Proof.
  intros Ht Hin Hok.
  destruct (parse_context str_float (topic sess) (parts_of (strip text)))
    as [[kvs|]|] eqn:Hparse.
  - destruct (engine_returns_after_parse str_float str_int _ _ _ Hparse)
      as (eng & res & Heng & Hres).
    exists kvs, eng, res. repeat split; try done.
    unfold step, dispatch. cbn [fst snd conv user_data state_handlers].
    unfold on_collect_context. rewrite or_text_some_empty, Hparse.
    unfold generate_by_topic.
    change (topic (update_context_vars kvs sess)) with (topic sess).
    by rewrite Heng, Hres.
  - exfalso. rewrite Ht in Hparse. revert Hparse.
    unfold parsed_topics in Hin.
    repeat (apply elem_of_cons in Hin as [->|Hin]); [..|by apply elem_of_nil in Hin].
    all: unfold parse_context; cbn [topic_is];
      repeat match goal with
             | |- context [String.eqb ?a ?b] =>
                 let v := eval vm_compute in (String.eqb a b) in
                 change (String.eqb a b) with v
             end; cbv iota;
      repeat match goal with
             | |- context [mbind _ ?o] =>
                 destruct o; cbn [mbind option_bind]; try discriminate
             end.
  - exfalso. rewrite Ht in Hparse.
    apply failed_parse_has_bad_number in Hparse as (i & k & p & Hi & Hp & Hbad);
      [|exact Hin].
    exact (Hok i k p Hi Hp Hbad).
Qed.

End FlowTheorems.

(** * Further properties of the rule engines and the renderer *)

Section EngineExtras.

Variable str_float : string -> option float.
Variable str_int : string -> option Z.

(** X10. The clamp to the interval from 0.05 to 0.95 never takes effect:
    whatever the inputs, the career engine returns a probability between
    0.38 and 0.61, the study engine between 0.33 and 0.52, and the finance
    engine between 0.45 and 0.55. *)
Theorem engine_prob_ranges sess res :
  (career_rule_engine str_float sess = Some res ->
     (0.38 <=? prob res)%float = true /\ (prob res <=? 0.61)%float = true) /\
  (study_rule_engine str_float str_int sess = Some res ->
     (0.33 <=? prob res)%float = true /\ (prob res <=? 0.52)%float = true) /\
  (finance_rule_engine str_float sess = Some res ->
     (0.45 <=? prob res)%float = true /\ (prob res <=? 0.55)%float = true).
Proof.
  split; [|split].
  - unfold career_rule_engine. engine_cases.
    all: split; vm_compute; reflexivity.
  - unfold study_rule_engine. engine_cases.
    all: split; vm_compute; reflexivity.
  - unfold finance_rule_engine. engine_cases.
    all: split; vm_compute; reflexivity.
Qed.

Ltac same_numbers :=
  repeat match goal with
         | |- context [mbind _ ?o] =>
             destruct o; [|discriminate]; cbn [mbind option_bind]
         end;
  repeat match goal with
         | |- context [String.eqb ?o "break"] => destruct (String.eqb o "break")
         end;
  intros [= <-] [= <-]; split; reflexivity.

(** X11. The answers to the three questions never change the number: two
    Sessions with the same contextVars get the same [prob] and the same
    [explain] from an engine, whatever their time horizon, orientation and
    investment (these only select the horizon label, the opportunity and
    risk texts and the career action list). *)
Theorem answers_do_not_change_prob t eng sess sess' res res' :
  engine_of_topic str_float str_int t = Some eng ->
  context_vars sess = context_vars sess' ->
  eng sess = Some res ->
  eng sess' = Some res' ->
  prob res = prob res' /\ explain res = explain res'.
Proof.
  unfold engine_of_topic.
  repeat match goal with
         | |- context [topic_is t ?n] => destruct (topic_is t n)
         end; intros [= <-] Hcv; try discriminate.
  - unfold career_rule_engine. rewrite Hcv. same_numbers.
  - unfold study_rule_engine. rewrite Hcv. same_numbers.
  - unfold finance_rule_engine. rewrite Hcv. same_numbers.
  - same_numbers.
  - same_numbers.
  - same_numbers.
Qed.

(** X12. An engine reads only what the parsing pass has just written:
    after a successful pass, its result is the same whether contextVars
    held entries of earlier runs or was empty before the pass. *)
Theorem engine_ignores_earlier_entries sess parts kvs eng :
  parse_context str_float (topic sess) parts = Some (Vars kvs) ->
  engine_of_topic str_float str_int (topic sess) = Some eng ->
  eng (update_context_vars kvs sess)
  = eng (update_context_vars kvs (without_context_vars sess)).
Proof.
  unfold parse_context, engine_of_topic.
  repeat match goal with
         | |- context [topic_is ?t ?n] => destruct (topic_is t n)
         end; try discriminate.
  all: repeat match goal with
         | |- context [mbind _ ?o] =>
             destruct o; [|discriminate]; cbn [mbind option_bind]
         end; intros [= <-] [= <-].
  - unfold career_rule_engine. dict_lookup. reflexivity.
  - unfold study_rule_engine. dict_lookup. reflexivity.
  - unfold finance_rule_engine. dict_lookup. reflexivity.
  - reflexivity.
  - reflexivity.
  - reflexivity.
Qed.

End EngineExtras.

(** ** NaN and missing inputs *)

Lemma SFcompare_refl f : f <> S754_nan -> SFcompare f f = Some Eq.
Proof.
  destruct f as [s|s| |s m e]; intros Hf; try done; cbn.
  - by destruct s.
  - rewrite Z.compare_refl.
    assert (Pos.compare_cont Eq m m = Eq) as -> by apply Pos.compare_cont_refl.
    by destruct s.
Qed.

Lemma is_nan_spec x : PrimFloat.is_nan x = true -> Prim2SF x = S754_nan.
Proof.
  unfold PrimFloat.is_nan. rewrite FloatAxioms.eqb_spec. unfold SFeqb. intros H.
  destruct (Prim2SF x) eqn:E; try reflexivity.
  all: rewrite SFcompare_refl in H by discriminate; discriminate.
Qed.

(** Every comparison with a NaN is false. *)
Lemma nan_compares_false x y :
  PrimFloat.is_nan x = true ->
  (x <? y)%float = false /\ (y <? x)%float = false /\
  (x <=? y)%float = false /\ (y <=? x)%float = false.
Proof.
  intros Hx%is_nan_spec.
  rewrite !ltb_spec, !leb_spec, Hx. unfold SFltb, SFleb.
  repeat split; try reflexivity; by destruct (Prim2SF y).
Qed.

Section EdgeInputs.

Variable str_float : string -> option float.
Variable str_int : string -> option Z.

(** X13. A NaN input makes every threshold comparison false, so each
    engine takes its last branch for it: NaN years of experience get the
    career factor 1.10 (that of five years and more), a NaN score gets the
    study factor 0.95 (that of a score under 70), and NaN years of investing
    leave the finance factor at 1.00. *)
Theorem nan_takes_the_last_branch sess x res :
  PrimFloat.is_nan x = true ->
  (context_vars sess !! "years" = Some (VFloat x) ->
   career_rule_engine str_float sess = Some res ->
   String.prefix "基线0.45 × 经验因子1.10 " (explain res) = true) /\
  (context_vars sess !! "current_score" = Some (VFloat x) ->
   study_rule_engine str_float str_int sess = Some res ->
   String.prefix "基线0.40 × 水平因子0.95 " (explain res) = true) /\
  (context_vars sess !! "exp_years" = Some (VFloat x) ->
   finance_rule_engine str_float sess = Some res ->
   String.prefix "基线0.50 × 经验因子1.00 " (explain res) = true).
Proof.
  intros Hx.
  pose proof (nan_compares_false x 1 Hx) as (L1 & G1 & _ & _).
  pose proof (nan_compares_false x 3 Hx) as (L3 & G3 & _ & _).
  pose proof (nan_compares_false x 5 Hx) as (L5 & _ & _ & _).
  pose proof (nan_compares_false x 85 Hx) as (_ & _ & _ & G85).
  pose proof (nan_compares_false x 70 Hx) as (_ & _ & _ & G70).
  split; [|split]; intros Hv.
  - unfold career_rule_engine, dict_get. rewrite Hv.
    cbn [default from_option id py_float mbind option_bind]. rewrite L1, L3, L5.
    engine_cases; vm_compute; reflexivity.
  - unfold study_rule_engine, dict_get. rewrite Hv.
    cbn [default from_option id py_float mbind option_bind]. rewrite G85, G70.
    engine_cases; vm_compute; reflexivity.
  - unfold finance_rule_engine, dict_get. rewrite Hv.
    cbn [default from_option id py_float mbind option_bind]. rewrite L1, G3.
    engine_cases; vm_compute; reflexivity.
Qed.

(** X14. Called on a Session that holds none of the keys it reads, each
    engine falls back on its defaults (no experience, no portfolio, no
    cash buffer; score 0, no hours, 30 days; no experience, 10 % drawdown)
    and returns: 0.38 for career, 0.38 for study and 0.49 for finance. *)
Theorem engines_use_defaults_for_missing_keys sess :
  context_vars sess = ∅ ->
  exists r1 r2 r3,
    career_rule_engine str_float sess = Some r1 /\ prob r1 = 0.38%float /\
    explain r1 = "基线0.45 × 经验因子0.90 + 作品集+0.00 + 现金缓冲-0.03" /\
    study_rule_engine str_float str_int sess = Some r2 /\ prob r2 = 0.38%float /\
    explain r2 = "基线0.40 × 水平因子0.95 + 投入+0.00 + 期限+0.00" /\
    finance_rule_engine str_float sess = Some r3 /\ prob r3 = 0.49%float /\
    explain r3 = "基线0.50 × 经验因子0.95 + 风险偏好+0.02".
Proof.
  intros Hempty.
  unfold career_rule_engine, study_rule_engine, finance_rule_engine, dict_get.
  rewrite Hempty, !lookup_empty. cbn [default from_option id py_float py_int py_bool].
  change (float_of_int 0) with (Some 0%float).
  change (float_of_int 10) with (Some 10%float).
  cbn [mbind option_bind].
  destruct (String.eqb _ "break"); eexists _, _, _;
    repeat split; vm_compute; reflexivity.
Qed.

(** X15. All else equal, an online portfolio always raises the career
    probability. *)
Theorem portfolio_raises_career_prob sess r0 r1 :
  career_rule_engine str_float
    (update_context_vars [("portfolio", VBool false)] sess) = Some r0 ->
  career_rule_engine str_float
    (update_context_vars [("portfolio", VBool true)] sess) = Some r1 ->
  (prob r0 <? prob r1)%float = true.
Proof.
  unfold career_rule_engine. dict_lookup. cbn [py_bool].
  repeat match goal with
         | |- context [mbind _ ?o] =>
             destruct o; [|discriminate]; cbn [mbind option_bind]
         end.
  destruct (String.eqb _ "break"); intros [= <-] [= <-];
    cbv beta iota zeta delta [prob]; split_ifs; vm_compute; reflexivity.
Qed.

End EdgeInputs.

(** ** What the rendered text shows *)

Lemma contains_unfold needle hay :
  contains needle hay =
  String.prefix needle hay ||
  match hay with
  | EmptyString => false
  | String _ r => contains needle r
  end.
Proof. by destruct hay. Qed.

Lemma contains_append a x b : contains x (a +:+ x +:+ b) = true.
Proof.
  induction a as [|c a IH].
  - rewrite contains_unfold. change ("" +:+ x +:+ b) with (x +:+ b).
    by rewrite prefix_append.
  - change (String c a +:+ x +:+ b) with (String c (a +:+ x +:+ b)).
    rewrite contains_unfold, IH. apply orb_true_r.
Qed.

Lemma string_app_assoc (a b c : string) : (a +:+ b) +:+ c = a +:+ b +:+ c.
Proof.
  induction a as [|x a IH]; [reflexivity|].
  change (String x ((a +:+ b) +:+ c) = String x (a +:+ b +:+ c)).
  by rewrite IH.
Qed.

Section RendererExtras.

Variable str_float : string -> option float.
Variable str_int : string -> option Z.

Lemma engine_horizon t eng sess res :
  engine_of_topic str_float str_int t = Some eng ->
  eng sess = Some res ->
  horizon res = horizon_or_3m sess.
Proof.
  unfold engine_of_topic.
  repeat match goal with
         | |- context [topic_is t ?n] => destruct (topic_is t n)
         end; intros [= <-]; try discriminate;
    try (intros [= <-]; reflexivity).
  - unfold career_rule_engine.
    repeat match goal with
           | |- context [mbind _ ?o] =>
               destruct o; [|discriminate]; cbn [mbind option_bind]
           end.
    destruct (String.eqb _ "break"); intros [= <-]; reflexivity.
  - unfold study_rule_engine.
    repeat match goal with
           | |- context [mbind _ ?o] =>
               destruct o; [|discriminate]; cbn [mbind option_bind]
           end.
    intros [= <-]; reflexivity.
  - unfold finance_rule_engine.
    repeat match goal with
           | |- context [mbind _ ?o] =>
               destruct o; [|discriminate]; cbn [mbind option_bind]
           end.
    intros [= <-]; reflexivity.
Qed.

(** X16. The time window shown for an engine result is 本月 when the
    recorded horizon is [1m], 半年 when it is [6m], and 三个月 in every
    other case: for [3m], for no horizon, for the empty one of the callback
    [t:], and for any unknown one. *)
Theorem shown_horizon t eng sess res :
  engine_of_topic str_float str_int t = Some eng ->
  eng sess = Some res ->
  horizon_label (horizon res) =
    if decide (time_horizon sess = Some "1m") then "本月"
    else if decide (time_horizon sess = Some "6m") then "半年"
    else "三个月".
Proof.
  intros Heng Hres. rewrite (engine_horizon _ _ _ _ Heng Hres).
  unfold horizon_or_3m, or_text, horizon_label.
  destruct (time_horizon sess) as [h|]; [|reflexivity].
  destruct (String.eqb_spec h "") as [->|]; [reflexivity|].
  destruct (String.eqb_spec h "1m") as [->|]; [reflexivity|].
  destruct (String.eqb_spec h "3m") as [->|]; [reflexivity|].
  destruct (String.eqb_spec h "6m") as [->|]; [reflexivity|].
  repeat case_decide; congruence.
Qed.

(** X17. The probability shown to the user is the engine's [prob]: the
    rendered text carries it with two decimals after the label, and reading
    those two decimals back gives [prob] exactly. *)
Theorem shown_probability_reads_back t eng sess res :
  engine_of_topic str_float str_int t = Some eng ->
  eng sess = Some res ->
  contains ("【结论】成功概率：" +:+ format_2f false (prob res) +:+ nl)
    (assemble_base_markdown res) = true /\
  decimal_literal (format_2f false (prob res)) = Some (prob res).
Proof.
  intros Heng Hres. split.
  - unfold assemble_base_markdown. cbv zeta.
    match goal with
    | |- contains _ (?t +:+ ?s +:+ ?h +:+ nl +:+ ?l +:+ ?f +:+ nl +:+ ?rest) = true =>
        replace (t +:+ s +:+ h +:+ nl +:+ l +:+ f +:+ nl +:+ rest)
          with ((t +:+ s +:+ h +:+ nl) +:+ (l +:+ f +:+ nl) +:+ rest)
          by (by rewrite !string_app_assoc)
    end.
    apply contains_append.
  - revert Heng Hres. unfold engine_of_topic.
    repeat match goal with
           | |- context [topic_is t ?n] => destruct (topic_is t n)
           end; intros [= <-]; try discriminate.
    + unfold career_rule_engine. engine_cases; vm_compute; reflexivity.
    + unfold study_rule_engine. engine_cases; vm_compute; reflexivity.
    + unfold finance_rule_engine. engine_cases; vm_compute; reflexivity.
    + intros [= <-]. vm_compute. reflexivity.
    + intros [= <-]. vm_compute. reflexivity.
    + intros [= <-]. vm_compute. reflexivity.
Qed.

Lemma horizon_label_cases h :
  horizon_label h = "本月" \/ horizon_label h = "三个月" \/ horizon_label h = "半年".
Proof.
  unfold horizon_label.
  destruct (String.eqb h "1m"), (String.eqb h "3m"), (String.eqb h "6m"); auto.
Qed.

Ltac rendered_cases :=
  repeat match goal with
         | |- context [mbind _ ?o] =>
             destruct o; [|discriminate]; cbn [mbind option_bind]
         end;
  try match goal with
      | |- context [String.eqb ?o "break"] => destruct (String.eqb o "break")
      end;
  intros [= <-];
  unfold assemble_base_markdown;
  cbv beta iota zeta delta [title horizon prob explain opportunity risk actions];
  match goal with
  | |- context [horizon_label ?h] =>
      destruct (horizon_label_cases h) as [-> | [-> | ->]]
  end;
  split_ifs; vm_compute; reflexivity.

(** X18. The rendering of every engine result lists its three actions and
    nothing else as list items: the lines of the text that start with a dash
    are exactly the three actions of the result, in order. *)
Theorem rendering_lists_the_actions t eng sess res :
  engine_of_topic str_float str_int t = Some eng ->
  eng sess = Some res ->
  action_lines (assemble_base_markdown res) = map (String.append "- ") (actions res).
Proof.
  unfold engine_of_topic.
  repeat match goal with
         | |- context [topic_is t ?n] => destruct (topic_is t n)
         end; intros [= <-]; try discriminate.
  - unfold career_rule_engine. rendered_cases.
  - unfold study_rule_engine. rendered_cases.
  - unfold finance_rule_engine. rendered_cases.
  - rendered_cases.
  - rendered_cases.
  - rendered_cases.
Qed.

End RendererExtras.

(** ** Further properties of the context parser *)

Lemma split_not_empty sep s : exists p rest, split sep s = p :: rest.
Proof.
  destruct s as [|c s]; cbn [split]; [eauto|].
  destruct (Ascii.eqb c sep); [eauto|].
  destruct (split sep s); eauto.
Qed.

Section DictOverwrite.
Context {V : Type}.
Implicit Types (d : gmap string V) (kvs : list (string * V)).

(** The entry of a written key does not depend on the dictionary
    updated. *)
Lemma dict_update_lookup_written d d' kvs k :
  k ∈ map fst kvs -> dict_update d kvs !! k = dict_update d' kvs !! k.
Proof.
  revert d d'. induction kvs as [|[k' v'] kvs IH]; intros d d' Hk.
  - by apply elem_of_nil in Hk.
  - rewrite !dict_update_cons.
    destruct (decide (k ∈ map fst kvs)) as [Hin|Hout]; [by apply IH|].
    cbn [map fst] in Hk. apply elem_of_cons in Hk as [->|Hk]; [|done].
    rewrite !dict_update_lookup_other by done.
    by rewrite !lookup_insert_eq.
Qed.

Lemma dict_update_overwrites d kvs1 kvs2 :
  map fst kvs1 = map fst kvs2 ->
  dict_update (dict_update d kvs1) kvs2 = dict_update d kvs2.
Proof.
  intros Hkeys. apply map_eq. intros k.
  destruct (decide (k ∈ map fst kvs2)) as [Hin|Hout].
  - by apply dict_update_lookup_written.
  - rewrite !dict_update_lookup_other by (rewrite ?Hkeys; done). done.
Qed.
End DictOverwrite.

Section ParserExtras.

Variable str_float : string -> option float.
Variable str_int : string -> option Z.
Variable USE_LLM : bool.
Variable uid : Z.

(** X19. Splitting never yields an empty list, so a context line always has
    a first field: the first field is always converted and its default is
    never used (an empty line has the empty text as its first field). *)
Theorem first_field_is_always_present {A} (conv : string -> option A) text dflt :
  exists p,
    parts_of text !! 0%nat = Some p /\
    field_or conv (parts_of text) 0 dflt = conv p.
Proof.
  unfold parts_of, field_or.
  destruct (split_not_empty ","%char text) as (p & rest & ->).
  exists (strip p). by split.
Qed.

(** X20. Only the first three fields of a context line are read: fields
    after the third never change the outcome of the parse. *)
Theorem fields_after_the_third_are_ignored t parts :
  parse_context str_float t parts = parse_context str_float t (take 3 parts).
Proof.
  unfold parse_context, field_or.
  by rewrite !lookup_take_lt by lia.
Qed.

(** X21. A later parsing pass for the same topic overwrites the earlier one
    completely: after two successful passes contextVars is what the second
    pass alone would have left. *)
Theorem later_pass_overwrites sess parts1 parts2 kvs1 kvs2 :
  parse_context str_float (topic sess) parts1 = Some (Vars kvs1) ->
  parse_context str_float (topic sess) parts2 = Some (Vars kvs2) ->
  update_context_vars kvs2 (update_context_vars kvs1 sess)
  = update_context_vars kvs2 sess.
Proof.
  intros H1%parse_context_keys H2%parse_context_keys.
  unfold update_context_vars. cbn [user_id topic question time_horizon micro context_vars].
  f_equal. apply dict_update_overwrites. congruence.
Qed.

(** X22. A blank context line (empty, or only whitespace) has the empty
    text as its only field.  For love and growth it is accepted: the status
    or goal is stored as the empty text, the other two entries get their
    defaults, and a result is sent.  For career, study, finance and health,
    whose first field is numeric, it is turned down with the retry prompt
    as soon as the conversion of the empty text fails. *)
Theorem blank_line_outcome w sess text :
  strip text = "" ->
  (topic sess = Some "love" ->
   exists out,
     step str_float str_int USE_LLM uid
       (mkBot (Some COLLECT_CONTEXT) (Some sess)) (TextMessage text, w)
     = Some (mkBot (Some CHOOSING_TOPIC)
               (Some (update_context_vars
                        [("status", VStr ""); ("comm_freq_per_week", VFloat 0);
                         ("distance", VStr "同城")] sess)), out)) /\
  (topic sess = Some "growth" ->
   exists out,
     step str_float str_int USE_LLM uid
       (mkBot (Some COLLECT_CONTEXT) (Some sess)) (TextMessage text, w)
     = Some (mkBot (Some CHOOSING_TOPIC)
               (Some (update_context_vars
                        [("goal", VStr ""); ("hours_per_week", VFloat 0);
                         ("pain_point", VStr "不明确")] sess)), out)) /\
  (str_float "" = None ->
   topic sess ∈ [Some "career"; Some "study"; Some "finance"; Some "health"] ->
   step str_float str_int USE_LLM uid
     (mkBot (Some COLLECT_CONTEXT) (Some sess)) (TextMessage text, w)
   = Some (mkBot (Some COLLECT_CONTEXT) (Some sess), [retry_prompt])).
Proof.
  intros Hblank.
  assert (parts_of (strip (or_text (Some text) "")) = [""]) as Hparts
    by (by rewrite or_text_some_empty, Hblank).
  unfold step, dispatch. cbn [fst snd conv user_data state_handlers].
  split; [|split].
  - intros Ht.
    destruct (on_collect_context_parsed str_float str_int USE_LLM w sess (Some text)
                [("status", VStr ""); ("comm_freq_per_week", VFloat 0);
                 ("distance", VStr "同城")]) as [final ->];
      [by rewrite Hparts, Ht|eauto].
  - intros Ht.
    destruct (on_collect_context_parsed str_float str_int USE_LLM w sess (Some text)
                [("goal", VStr ""); ("hours_per_week", VFloat 0);
                 ("pain_point", VStr "不明确")]) as [final ->];
      [by rewrite Hparts, Ht|eauto].
  - intros Hfloat Ht.
    rewrite on_collect_context_failed; [reflexivity|].
    rewrite Hparts.
    repeat (apply elem_of_cons in Ht as [->|Ht]); [..|by apply elem_of_nil in Ht].
    all: unfold parse_context, field_or; cbn [topic_is];
      repeat match goal with
             | |- context [String.eqb ?a ?b] =>
                 let v := eval vm_compute in (String.eqb a b) in
                 change (String.eqb a b) with v
             end; cbv iota; cbn [lookup list_lookup]; by rewrite Hfloat.
Qed.

End ParserExtras.

(** ** The oracle's themes *)

(** X23. The oracle pairs each theme with its own hint: the text shows the
    theme and, on the next line, the hint listed with it; and the draw
    decides which, the pair at the drawn index being the one shown, so each
    of the four pairs can appear. *)
Theorem oracle_shows_the_drawn_pair d sess :
  exists theme hint text,
    oracle_themes !! (d mod 4)%nat = Some (theme, hint) /\
    generate_oracle d sess = Some text /\
    contains ("主题：" +:+ theme +:+ nl +:+ "机会：" +:+ hint +:+ nl) text = true.
Proof.
  unfold generate_oracle, random_choice.
  change (length oracle_themes) with 4%nat.
  assert (d mod 4 < 4)%nat as Hlt by (apply Nat.mod_upper_bound; lia).
  destruct (d mod 4)%nat as [|[|[|[|n]]]]; [..|exfalso; lia].
  all: eexists _, _, _; split; [reflexivity|]; split; [reflexivity|];
    vm_compute; reflexivity.
Qed.

(** * The topic menu and the handlers *)

Section MenuTheorems.

Variable str_float : string -> option float.
Variable str_int : string -> option Z.
Variable USE_LLM : bool.
Variable uid : Z.

Lemma topic_callback_step b t w :
  conv b = Some CHOOSING_TOPIC ->
  exists out,
    step str_float str_int USE_LLM uid b (CallbackQuery ("topic:" +:+ t), w)
    = Some (mkBot (Some (if String.eqb t "oracle" then CHOOSING_TOPIC else MICRO_Q1))
              (Some (set_topic t (default (new_session uid) (user_data b)))),
            out).
Proof.
  destruct b as [c ud]. cbn [conv user_data]. intros ->.
  unfold step, dispatch. cbn [fst snd conv user_data state_handlers].
  rewrite (prefix_append "topic:" t).
  unfold on_topic_callback.
  rewrite (prefix_append "topic:" t).
  change (after_colon ("topic:" +:+ t)) with (Some t).
  cbn [mbind option_bind].
  destruct (String.eqb t "oracle").
  - destruct (generate_oracle_returns (draw w)
                (set_topic t (default (new_session uid) ud))) as [text ->].
    eexists. reflexivity.
  - eexists. reflexivity.
Qed.

(** X24. The topic menu and the handlers agree.  The menu has one button
    per entry of [TOPICS], labelled with the entry's display name, and no
    other button.  In [CHOOSING_TOPIC] every button is handled: its topic is
    recorded in the Session; the oracle button returns to the menu, each of
    the other six asks the first question, and each of these six topics is
    one the context parser knows.  The unsupported notice is therefore
    never reached from the menu's buttons. *)
Theorem menu_buttons_are_handled b w :
  conv b = Some CHOOSING_TOPIC ->
  exists rows,
    main_menu_markup = Some rows /\
    (forall t, is_Some (TOPICS !! t) <->
       exists btn, btn ∈ concat rows /\ callback_data btn = "topic:" +:+ t) /\
    forall btn, btn ∈ concat rows ->
      exists t out,
        callback_data btn = "topic:" +:+ t /\
        TOPICS !! t = Some (label btn) /\
        step str_float str_int USE_LLM uid b (CallbackQuery (callback_data btn), w)
        = Some (mkBot (Some (if String.eqb t "oracle" then CHOOSING_TOPIC else MICRO_Q1))
                  (Some (set_topic t (default (new_session uid) (user_data b)))),
                out) /\
        (t = "oracle" \/ t ∈ parsed_topics).
Proof.
  intros Hc.
  assert (exists rows, main_menu_markup = Some rows /\
            (fun btn => (callback_data btn, label btn)) <$> concat rows
            = (fun kv : string * string => ("topic:" +:+ kv.1, kv.2)) <$>
                [("career", "🌟 事业/工作"); ("love", "💞 感情/关系");
                 ("study", "📚 学业/考试"); ("finance", "💰 财务/投资");
                 ("health", "🩺 健康/作息"); ("growth", "🧭 自我成长");
                 ("oracle", "🃏 随缘抽签")]) as (rows & Hrows & Hmap).
  { eexists. split; vm_compute; reflexivity. }
  exists rows. split; [exact Hrows|].
  assert (forall btn, btn ∈ concat rows ->
            exists t, callback_data btn = "topic:" +:+ t /\
                      TOPICS !! t = Some (label btn) /\
                      (t = "oracle" \/ t ∈ parsed_topics)) as Hbtn.
  { intros btn Hin.
    apply (list_elem_of_fmap_2 (fun btn => (callback_data btn, label btn))) in Hin.
    rewrite Hmap in Hin. cbn [fmap list_fmap fst snd] in Hin.
    unfold parsed_topics.
    repeat (apply elem_of_cons in Hin as [[= Hd Hl]|Hin]);
      [..|by apply elem_of_nil in Hin].
    all: eexists; split; [exact Hd|]; split;
      [rewrite Hl; vm_compute; reflexivity|set_solver]. }
  split.
  - intros t. split.
    + intros [l Hl]. unfold TOPICS in Hl.
      apply elem_of_list_to_map_2 in Hl.
      assert (("topic:" +:+ t, l) ∈
                (fun btn => (callback_data btn, label btn)) <$> concat rows)
        as Hin.
      { rewrite Hmap.
        by apply (list_elem_of_fmap_2
                    (fun kv : string * string => ("topic:" +:+ kv.1, kv.2)) _ (t, l)). }
      apply list_elem_of_fmap in Hin as (btn & [= Hd _] & Hin).
      by exists btn.
    + intros (btn & Hin & Hd).
      destruct (Hbtn btn Hin) as (t' & Hd' & Hl & _).
      rewrite Hd in Hd'.
      assert (t = t') as -> by (cbv [String.append] in Hd'; congruence).
      eauto.
  - intros btn Hin.
    destruct (Hbtn btn Hin) as (t & Hd & Hl & Hp).
    destruct (topic_callback_step b t w Hc) as [out Hstep].
    exists t, out. rewrite Hd. auto.
Qed.

End MenuTheorems.

(** * Properties of the cell translation *)

Module TransExcelFacts.
Import TransExcel.

Section TranslateFacts.

Variable count_tokens : string -> Z.
Variable MAX_TOKENS : Z.
Variable other : Type.

(** X25. A translation that was returned is remembered: asking for the
    same text in the same context again gives the same string and leaves
    the token count and the cache as they are, whatever the request would
    come to and even if the limit has been passed meanwhile. *)
Theorem returned_translation_is_repeated r o text task_context st :
  translate_text count_tokens MAX_TOKENS o text task_context
    (translate_text count_tokens MAX_TOKENS (Returned r) text task_context st).2
  = translate_text count_tokens MAX_TOKENS (Returned r) text task_context st.
Proof.
  unfold translate_text.
  destruct text as [text|]; [|reflexivity].
  destruct (String.eqb (strip text) ""); [reflexivity|].
  destruct (negb (has_letter text)); [reflexivity|].
  destruct (translation_cache st !! (text, task_context)) as [cached|] eqn:Hc.
  - cbn [snd]. by rewrite Hc.
  - destruct (MAX_TOKENS <? _) eqn:Hlim.
    + cbn [snd]. by rewrite Hc, Hlim.
    + cbn [snd translation_cache]. by rewrite lookup_insert_eq.
Qed.

(** What one call does to the count of used tokens. *)
Lemma translate_text_tokens o text task_context st :
  let st' := (translate_text count_tokens MAX_TOKENS o text task_context st).2 in
  st' = st \/
  exists s r,
    text = Some s /\ o = Returned r /\
    used_tokens st + input_tokens_of count_tokens s task_context <= MAX_TOKENS /\
    used_tokens st'
    = used_tokens st + (input_tokens_of count_tokens s task_context + count_tokens r).
Proof.
  unfold translate_text.
  destruct text as [text|]; [|by left].
  destruct (String.eqb (strip text) ""); [by left|].
  destruct (negb (has_letter text)); [by left|].
  destruct (translation_cache st !! (text, task_context)); [by left|].
  destruct (MAX_TOKENS <? _) eqn:Hlim; [by left|].
  destruct o as [r|e]; [|by left].
  right. exists text, r. apply Z.ltb_ge in Hlim. by cbn.
Qed.

Lemma translate_cell_tokens o v task_context st :
  let st' := (translate_cell count_tokens MAX_TOKENS other o v task_context st).2 in
  st' = st \/
  exists s r,
    v = Text s /\ o = Returned r /\
    used_tokens st + input_tokens_of count_tokens s task_context <= MAX_TOKENS /\
    used_tokens st'
    = used_tokens st + (input_tokens_of count_tokens s task_context + count_tokens r).
Proof.
  destruct v as [s|x]; [|by left]. cbn [translate_cell].
  pose proof (translate_text_tokens o (Some s) task_context st) as H.
  destruct (translate_text count_tokens MAX_TOKENS o (Some s) task_context st)
    as [out st'].
  cbn [snd] in *. destruct H as [->|(s' & r & [= <-] & -> & Hle & Hu)]; [by left|].
  right. by exists s, r.
Qed.

Lemma translate_cells_tokens cells task_context st bound :
  (forall s, 0 <= count_tokens s) ->
  (forall v r, (v, Returned r) ∈ cells -> count_tokens r <= bound) ->
  used_tokens st <= MAX_TOKENS + bound ->
  let st' := (translate_cells count_tokens MAX_TOKENS other cells task_context st).2 in
  used_tokens st <= used_tokens st' <= MAX_TOKENS + bound.
Proof.
  intros Hcount. revert st.
  induction cells as [|[v o] rest IH]; intros st Hbound Hst; cbn [translate_cells].
  - cbn. lia.
  - pose proof (translate_cell_tokens o v task_context st) as H.
    destruct (translate_cell count_tokens MAX_TOKENS other o v task_context st)
      as [v' st1].
    cbn [snd] in H.
    assert (used_tokens st <= used_tokens st1 <= MAX_TOKENS + bound) as Hst1.
    { destruct H as [->|(s & r & -> & -> & Hle & ->)]; [lia|].
      assert (count_tokens r <= bound) by (eapply Hbound; left).
      pose proof (Hcount r). unfold input_tokens_of in *.
      pose proof (Hcount (prompt_of s)). pose proof (Hcount task_context). lia. }
    destruct (MAX_TOKENS <=? used_tokens st1); [cbn; lia|].
    specialize (IH st1).
    destruct (translate_cells count_tokens MAX_TOKENS other rest task_context st1)
      as [vs st2].
    cbn [snd] in *.
    assert (used_tokens st1 <= used_tokens st2 <= MAX_TOKENS + bound); [|lia].
    apply IH; [|lia]. intros v0 r Hin. eapply Hbound. right. exact Hin.
Qed.

(** X26. A run over a sheet never counts more tokens than the limit plus
    the tokens of one response: a request is only made while its input
    still fits under the limit, and the loop is left once the count
    reaches the limit.  The count starts at 0 whatever an earlier run
    left behind. *)
Theorem workbook_tokens_bounded cells task_context st bound :
  (forall s, 0 <= count_tokens s) ->
  0 <= MAX_TOKENS ->
  0 <= bound ->
  (forall v r, (v, Returned r) ∈ cells -> count_tokens r <= bound) ->
  0 <= used_tokens
         (process_workbook count_tokens MAX_TOKENS other cells task_context st).2
    <= MAX_TOKENS + bound.
Proof.
  intros Hcount Hmax Hb Hbound. unfold process_workbook.
  pose proof (translate_cells_tokens cells task_context
                (mkStore 0 (translation_cache st)) bound Hcount Hbound) as H.
  cbn [used_tokens] in H. cbn zeta in H. lia.
Qed.

Lemma translate_cell_kept o v task_context st :
  kept_as_is other v ->
  translate_cell count_tokens MAX_TOKENS other o v task_context st = (v, st).
Proof.
  destruct v as [s|x]; [|reflexivity]. cbn [kept_as_is translate_cell translate_text].
  intros [Hs|Hl].
  - rewrite Hs. reflexivity.
  - rewrite Hl. cbn [negb]. by destruct (String.eqb (strip s) "").
Qed.

(** X27. A run keeps the shape of the sheet: it returns as many cells as
    it was given, and a cell whose value is not a string, is blank or has
    no ASCII letter keeps its value, wherever it stands and whether or not
    the loop was left before it. *)
Theorem workbook_keeps_other_cells cells task_context st :
  length (process_workbook count_tokens MAX_TOKENS other cells task_context st).1
  = length cells /\
  forall i v o,
    cells !! i = Some (v, o) -> kept_as_is other v ->
    (process_workbook count_tokens MAX_TOKENS other cells task_context st).1 !! i
    = Some v.
Proof.
  unfold process_workbook. generalize (mkStore 0 (translation_cache st)).
  clear st. induction cells as [|[v o] rest IH]; intros st; cbn [translate_cells].
  - split; [reflexivity|]. intros i v o Hi. by rewrite lookup_nil in Hi.
  - pose proof (translate_cell_kept o v task_context st) as Hkept.
    destruct (translate_cell count_tokens MAX_TOKENS other o v task_context st)
      as [v' st1].
    destruct (MAX_TOKENS <=? used_tokens st1).
    + cbn [fst]. split; [cbn; by rewrite length_map|].
      intros [|i] w o' Hi Hw.
      * cbn in Hi |- *. injection Hi as <- <-. specialize (Hkept Hw). congruence.
      * change ((fst <$> rest) !! i = Some w).
        change (rest !! i = Some (w, o')) in Hi.
        by rewrite list_lookup_fmap, Hi.
    + specialize (IH st1).
      destruct (translate_cells count_tokens MAX_TOKENS other rest task_context st1)
        as [vs st2].
      cbn [fst] in *. destruct IH as [Hlen Hrest].
      split; [cbn; by rewrite Hlen|].
      intros [|i] w o' Hi Hw; cbn in Hi |- *.
      * injection Hi as <- <-. specialize (Hkept Hw). congruence.
      * eauto.
Qed.

Lemma translate_cell_no_request o o' v task_context st :
  needs_no_request other (translation_cache st) task_context v ->
  translate_cell count_tokens MAX_TOKENS other o v task_context st
  = translate_cell count_tokens MAX_TOKENS other o' v task_context st /\
  (translate_cell count_tokens MAX_TOKENS other o v task_context st).2 = st.
Proof.
  destruct v as [s|x]; [|done]. cbn [needs_no_request translate_cell translate_text].
  destruct (String.eqb (strip s) "") eqn:Hs; [done|].
  destruct (has_letter s) eqn:Hl; [|done]. cbn [negb].
  intros [Hs'|[?|[r Hr]]].
  - rewrite Hs' in Hs. by vm_compute in Hs.
  - discriminate.
  - by rewrite Hr.
Qed.

Lemma translate_cells_no_request cells cells' task_context st :
  used_tokens st < MAX_TOKENS ->
  map fst cells' = map fst cells ->
  (forall v o, (v, o) ∈ cells ->
     needs_no_request other (translation_cache st) task_context v) ->
  translate_cells count_tokens MAX_TOKENS other cells' task_context st
  = translate_cells count_tokens MAX_TOKENS other cells task_context st /\
  (translate_cells count_tokens MAX_TOKENS other cells task_context st).2 = st.
Proof.
  intros Hst. revert cells'.
  induction cells as [|[v o] rest IH]; intros [|[v' o'] rest'] Hmap Hno;
    try discriminate; [done|].
  cbn [map fst] in Hmap. injection Hmap as -> Hmap.
  cbn [translate_cells].
  destruct (translate_cell_no_request o o' v task_context st) as [Heq Hsame];
    [eapply Hno; left|].
  rewrite <- Heq.
  destruct (translate_cell count_tokens MAX_TOKENS other o v task_context st)
    as [v1 st1].
  cbn [snd] in Hsame. subst st1.
  destruct (MAX_TOKENS <=? used_tokens st) eqn:Hlim; [apply Z.leb_le in Hlim; lia|].
  destruct (IH rest' Hmap) as [Hrun Hst2];
    [intros v0 o0 Hin; eapply Hno; right; exact Hin|].
  rewrite Hrun.
  destruct (translate_cells count_tokens MAX_TOKENS other rest task_context st)
    as [vs st2].
  cbn [snd] in *. by subst st2.
Qed.

(** X28. A sheet whose string cells are all blank, without a letter or
    already in the cache for this context costs nothing: under a positive
    limit the run makes no request — its result does not depend on what
    any request would come to — the count of used tokens ends at 0, the
    cache is left as it was, and every cached text shows its cached
    translation.  The cache outlives a run: only the count is reset. *)
Theorem cached_sheet_costs_nothing cells task_context st :
  0 < MAX_TOKENS ->
  (forall v o, (v, o) ∈ cells ->
     needs_no_request other (translation_cache st) task_context v) ->
  (process_workbook count_tokens MAX_TOKENS other cells task_context st).2
  = mkStore 0 (translation_cache st) /\
  (forall cells', map fst cells' = map fst cells ->
     process_workbook count_tokens MAX_TOKENS other cells' task_context st
     = process_workbook count_tokens MAX_TOKENS other cells task_context st) /\
  (forall i s o r,
     cells !! i = Some (Text s, o) ->
     strip s <> "" -> has_letter s = true ->
     translation_cache st !! (s, task_context) = Some r ->
     (process_workbook count_tokens MAX_TOKENS other cells task_context st).1 !! i
     = Some (Text r)).
Proof.
  intros Hmax Hno. unfold process_workbook.
  set (st0 := mkStore 0 (translation_cache st)).
  assert (used_tokens st0 < MAX_TOKENS) as Hst0 by (cbn; lia).
  assert (forall v o, (v, o) ∈ cells ->
            needs_no_request other (translation_cache st0) task_context v)
    as Hno0 by exact Hno.
  split; [|split].
  - by destruct (translate_cells_no_request cells cells task_context st0).
  - intros cells' Hmap.
    by destruct (translate_cells_no_request cells cells' task_context st0).
  - assert (translation_cache st0 = translation_cache st) as Hcache by reflexivity.
    revert Hst0 Hno0 Hcache. generalize st0. clear Hno.
    induction cells as [|[v o] rest IH]; intros st1 Hst1 Hno1 Hc i s o' r Hi Hs Hl Hr.
    { by rewrite lookup_nil in Hi. }
    cbn [translate_cells].
    destruct (translate_cell_no_request o o v task_context st1) as [_ Hsame];
      [eapply Hno1; left|].
    destruct (translate_cell count_tokens MAX_TOKENS other o v task_context st1)
      as [v1 st2] eqn:Hcell.
    cbn [snd] in Hsame. subst st2.
    destruct (MAX_TOKENS <=? used_tokens st1) eqn:Hlim; [apply Z.leb_le in Hlim; lia|].
    specialize (IH st1 Hst1).
    destruct (translate_cells count_tokens MAX_TOKENS other rest task_context st1)
      as [vs st3].
    cbn [fst] in *.
    destruct i as [|i]; cbn in Hi |- *.
    + injection Hi as -> ->. cbn [translate_cell translate_text] in Hcell.
      apply String.eqb_neq in Hs. rewrite Hs, Hl, Hc, Hr in Hcell.
      cbn in Hcell. congruence.
    + eapply IH; eauto.
      intros v0 o0 Hin. eapply Hno1. right. exact Hin.
Qed.

End TranslateFacts.

(** ** Instances *)

Lemma workbook_tokens_bounded_witness :
  0 <= used_tokens (process_workbook bytes_count 100 Z sheet "价目表" empty_store).2
    <= 100 + 6.
Proof.
  apply (workbook_tokens_bounded bytes_count 100 Z sheet "价目表" empty_store 6).
  - intros s. unfold bytes_count. lia.
  - lia.
  - lia.
  - intros v r Hin. unfold sheet in Hin.
    repeat (apply elem_of_cons in Hin as [[= -> ->]|Hin]);
      [vm_compute; discriminate..|by apply elem_of_nil in Hin].
Defined.

Lemma cached_sheet_costs_nothing_witness :
  (process_workbook bytes_count 100 Z sheet "价目表"
     (process_workbook bytes_count 100 Z sheet "价目表" empty_store).2).2
  = mkStore 0
      (translation_cache (process_workbook bytes_count 100 Z sheet "价目表" empty_store).2) /\
  (forall cells', map fst cells' = map fst sheet ->
     process_workbook bytes_count 100 Z cells' "价目表"
       (process_workbook bytes_count 100 Z sheet "价目表" empty_store).2
     = process_workbook bytes_count 100 Z sheet "价目表"
         (process_workbook bytes_count 100 Z sheet "价目表" empty_store).2) /\
  (forall i s o r,
     sheet !! i = Some (Text s, o) ->
     strip s <> "" -> has_letter s = true ->
     translation_cache (process_workbook bytes_count 100 Z sheet "价目表" empty_store).2
       !! (s, "价目表") = Some r ->
     (process_workbook bytes_count 100 Z sheet "价目表"
        (process_workbook bytes_count 100 Z sheet "价目表" empty_store).2).1 !! i
     = Some (Text r)).
Proof.
  apply (cached_sheet_costs_nothing bytes_count 100 Z sheet "价目表").
  - lia.
  - intros v o Hin. unfold sheet in Hin.
    repeat (apply elem_of_cons in Hin as [[= -> ->]|Hin]);
      [..|by apply elem_of_nil in Hin]; cbn [needs_no_request].
    + right. right. vm_compute. eauto.
    + exact I.
    + right. left. vm_compute. reflexivity.
    + right. right. vm_compute. eauto.
Defined.

End TransExcelFacts.

(** * Instances *)


Lemma questions_lead_to_collection_witness :
  run decimal_literal Examples.integer_literal false 1
    (mkBot (Some CHOOSING_TOPIC) None)
    (questions "career" "3m" "stable" "time" Examples.quiet)
  = Some (mkBot (Some COLLECT_CONTEXT)
            (Some (answered "career" "3m" "stable" "time"
                     (default (new_session 1) None)))).
Proof.
  apply (questions_lead_to_collection decimal_literal Examples.integer_literal
           false 1 (mkBot (Some CHOOSING_TOPIC) None)).
  - reflexivity.
  - discriminate.
Defined.


Lemma collecting_is_reachable :
  reachable decimal_literal Examples.integer_literal false 1 Scenarios.collecting.
Proof.
  apply (run_reachable decimal_literal Examples.integer_literal false 1
           Scenarios.asking initial).
  - apply reach_initial.
  - vm_compute. reflexivity.
Qed.


Lemma reachable_session_identity_witness :
  user_id Examples.career_asked = 1 /\ question Examples.career_asked = None.
Proof.
  apply (reachable_session_identity decimal_literal Examples.integer_literal
           false 1 Scenarios.collecting).
  - apply collecting_is_reachable.
  - reflexivity.
Defined.


Lemma unknown_topic_rejected_at_collection_witness :
  context_prompt (topic Scenarios.unknown_topic) = "请按提示补充信息" /\
  step decimal_literal Examples.integer_literal false 1
    (mkBot (Some COLLECT_CONTEXT) (Some Scenarios.unknown_topic))
    (TextMessage "1, 2, 3", Examples.quiet)
  = Some (mkBot (Some CHOOSING_TOPIC) (Some Scenarios.unknown_topic),
          [unsupported_notice]).
Proof.
  apply (unknown_topic_rejected_at_collection decimal_literal
           Examples.integer_literal false 1).
  intros n Hn. unfold parsed_topics in Hn.
  repeat (apply elem_of_cons in Hn as [->|Hn]); try discriminate.
  by apply elem_of_nil in Hn.
Defined.

Lemma parse_fails_iff_bad_number_witness :
  parse_context decimal_literal (Some "career") ["x"; "是"; "4"] = None <->
  exists i k p,
    (i, k) ∈ numeric_fields "career" /\ ["x"; "是"; "4"] !! i = Some p /\
    cannot_convert decimal_literal k p.
Proof.
  apply (parse_fails_iff_bad_number decimal_literal "career").
  unfold parsed_topics. left.
Defined.

Lemma well_formed_line_gets_a_result_witness :
  exists kvs eng res,
    parse_context decimal_literal (topic Examples.career_asked)
      (parts_of (strip "3, 是, 4")) = Some (Vars kvs) /\
    engine_of_topic decimal_literal Examples.integer_literal
      (topic Examples.career_asked) = Some eng /\
    eng (update_context_vars kvs Examples.career_asked) = Some res /\
    step decimal_literal Examples.integer_literal false 1
      (mkBot (Some COLLECT_CONTEXT) (Some Examples.career_asked))
      (TextMessage "3, 是, 4", Examples.quiet)
    = Some (mkBot (Some CHOOSING_TOPIC)
              (Some (update_context_vars kvs Examples.career_asked)),
            [received_notice;
             render_with_llm_or_plain false Examples.quiet
               (assemble_base_markdown res)
               (or_text (topic Examples.career_asked) "generic");
             another_prompt]).
Proof.
  apply (well_formed_line_gets_a_result decimal_literal Examples.integer_literal
           false 1 Examples.quiet Examples.career_asked "3, 是, 4" "career").
  - reflexivity.
  - unfold parsed_topics. left.
  - intros i k p Hin Hp Hbad. simpl in Hin.
    repeat (apply elem_of_cons in Hin as [[= -> ->]|Hin]);
      [| |by apply elem_of_nil in Hin].
    + vm_compute in Hp. injection Hp as <-. vm_compute in Hbad. discriminate.
    + vm_compute in Hp. injection Hp as <-. vm_compute in Hbad. discriminate.
Defined.

Lemma engine_prob_ranges_witness :
  (0.38 <=? prob Examples.career_result)%float = true /\
  (prob Examples.career_result <=? 0.61)%float = true.
Proof.
  apply (proj1 (engine_prob_ranges decimal_literal Examples.integer_literal
                  Examples.career_session Examples.career_result)).
  vm_compute. reflexivity.
Defined.

Lemma answers_do_not_change_prob_witness :
  prob Examples.career_result = prob Scenarios.career_result_other_answers /\
  explain Examples.career_result = explain Scenarios.career_result_other_answers.
Proof.
  apply (answers_do_not_change_prob decimal_literal Examples.integer_literal
           (Some "career") (career_rule_engine decimal_literal)
           Examples.career_session Scenarios.career_session_other_answers).
  - reflexivity.
  - reflexivity.
  - vm_compute. reflexivity.
  - vm_compute. reflexivity.
Defined.

Lemma engine_ignores_earlier_entries_witness :
  career_rule_engine decimal_literal
    (update_context_vars Examples.career_vars
       (set_topic "career" Examples.study_session))
  = career_rule_engine decimal_literal
      (update_context_vars Examples.career_vars
         (without_context_vars (set_topic "career" Examples.study_session))).
Proof.
  apply (engine_ignores_earlier_entries decimal_literal Examples.integer_literal
           (set_topic "career" Examples.study_session) Examples.career_parts).
  - vm_compute. reflexivity.
  - reflexivity.
Defined.

Lemma nan_takes_the_last_branch_witness :
  (context_vars Scenarios.nan_years !! "years" = Some (VFloat PrimFloat.nan) ->
   career_rule_engine decimal_literal Scenarios.nan_years
   = Some Scenarios.nan_years_result ->
   String.prefix "基线0.45 × 经验因子1.10 " (explain Scenarios.nan_years_result) = true) /\
  (context_vars Scenarios.nan_years !! "current_score" = Some (VFloat PrimFloat.nan) ->
   study_rule_engine decimal_literal Examples.integer_literal Scenarios.nan_years
   = Some Scenarios.nan_years_result ->
   String.prefix "基线0.40 × 水平因子0.95 " (explain Scenarios.nan_years_result) = true) /\
  (context_vars Scenarios.nan_years !! "exp_years" = Some (VFloat PrimFloat.nan) ->
   finance_rule_engine decimal_literal Scenarios.nan_years
   = Some Scenarios.nan_years_result ->
   String.prefix "基线0.50 × 经验因子1.00 " (explain Scenarios.nan_years_result) = true).
Proof.
  apply (nan_takes_the_last_branch decimal_literal Examples.integer_literal
           Scenarios.nan_years PrimFloat.nan Scenarios.nan_years_result).
  vm_compute. reflexivity.
Defined.

(** The career engine does return [nan_years_result] on [nan_years]. *)
Lemma nan_years_result_is_returned :
  context_vars Scenarios.nan_years !! "years" = Some (VFloat PrimFloat.nan) /\
  career_rule_engine decimal_literal Scenarios.nan_years
  = Some Scenarios.nan_years_result.
Proof. split; vm_compute; reflexivity. Qed.

Lemma engines_use_defaults_for_missing_keys_witness :
  exists r1 r2 r3,
    career_rule_engine decimal_literal (new_session 1) = Some r1 /\
    prob r1 = 0.38%float /\
    explain r1 = "基线0.45 × 经验因子0.90 + 作品集+0.00 + 现金缓冲-0.03" /\
    study_rule_engine decimal_literal Examples.integer_literal (new_session 1)
    = Some r2 /\
    prob r2 = 0.38%float /\
    explain r2 = "基线0.40 × 水平因子0.95 + 投入+0.00 + 期限+0.00" /\
    finance_rule_engine decimal_literal (new_session 1) = Some r3 /\
    prob r3 = 0.49%float /\
    explain r3 = "基线0.50 × 经验因子0.95 + 风险偏好+0.02".
Proof.
  apply (engines_use_defaults_for_missing_keys decimal_literal
           Examples.integer_literal (new_session 1)).
  reflexivity.
Defined.

Lemma portfolio_raises_career_prob_witness :
  (prob Scenarios.career_result_no_portfolio <? prob Examples.career_result)%float
  = true.
Proof.
  apply (portfolio_raises_career_prob decimal_literal Examples.career_session).
  - vm_compute. reflexivity.
  - vm_compute. reflexivity.
Defined.

Lemma shown_horizon_witness :
  horizon_label (horizon Scenarios.career_result_other_answers) =
    if decide (time_horizon Scenarios.career_session_other_answers = Some "1m")
    then "本月"
    else if decide (time_horizon Scenarios.career_session_other_answers = Some "6m")
         then "半年"
         else "三个月".
Proof.
  apply (shown_horizon decimal_literal Examples.integer_literal
           (Some "career") (career_rule_engine decimal_literal)).
  - reflexivity.
  - vm_compute. reflexivity.
Defined.

Lemma shown_probability_reads_back_witness :
  contains ("【结论】成功概率：" +:+ format_2f false (prob Examples.career_result) +:+ nl)
    (assemble_base_markdown Examples.career_result) = true /\
  decimal_literal (format_2f false (prob Examples.career_result))
  = Some (prob Examples.career_result).
Proof.
  apply (shown_probability_reads_back decimal_literal Examples.integer_literal
           (Some "career") (career_rule_engine decimal_literal)
           Examples.career_session).
  - reflexivity.
  - vm_compute. reflexivity.
Defined.

Lemma rendering_lists_the_actions_witness :
  action_lines (assemble_base_markdown Examples.career_result)
  = map (String.append "- ") (actions Examples.career_result).
Proof.
  apply (rendering_lists_the_actions decimal_literal Examples.integer_literal
           (Some "career") (career_rule_engine decimal_literal)
           Examples.career_session).
  - reflexivity.
  - vm_compute. reflexivity.
Defined.

Lemma later_pass_overwrites_witness :
  update_context_vars Examples.career_vars
    (update_context_vars Scenarios.earlier_vars Examples.career_asked)
  = update_context_vars Examples.career_vars Examples.career_asked.
Proof.
  apply (later_pass_overwrites decimal_literal Examples.career_asked
           Scenarios.earlier_parts Examples.career_parts).
  - vm_compute. reflexivity.
  - vm_compute. reflexivity.
Defined.

Lemma blank_line_outcome_witness :
  (topic Scenarios.love_asked = Some "love" ->
   exists out,
     step decimal_literal Examples.integer_literal false 1
       (mkBot (Some COLLECT_CONTEXT) (Some Scenarios.love_asked))
       (TextMessage "  ", Examples.quiet)
     = Some (mkBot (Some CHOOSING_TOPIC)
               (Some (update_context_vars
                        [("status", VStr ""); ("comm_freq_per_week", VFloat 0);
                         ("distance", VStr "同城")] Scenarios.love_asked)), out)) /\
  (topic Scenarios.love_asked = Some "growth" ->
   exists out,
     step decimal_literal Examples.integer_literal false 1
       (mkBot (Some COLLECT_CONTEXT) (Some Scenarios.love_asked))
       (TextMessage "  ", Examples.quiet)
     = Some (mkBot (Some CHOOSING_TOPIC)
               (Some (update_context_vars
                        [("goal", VStr ""); ("hours_per_week", VFloat 0);
                         ("pain_point", VStr "不明确")] Scenarios.love_asked)), out)) /\
  (decimal_literal "" = None ->
   topic Scenarios.love_asked
     ∈ [Some "career"; Some "study"; Some "finance"; Some "health"] ->
   step decimal_literal Examples.integer_literal false 1
     (mkBot (Some COLLECT_CONTEXT) (Some Scenarios.love_asked))
     (TextMessage "  ", Examples.quiet)
   = Some (mkBot (Some COLLECT_CONTEXT) (Some Scenarios.love_asked), [retry_prompt])).
Proof.
  apply (blank_line_outcome decimal_literal Examples.integer_literal false 1
           Examples.quiet Scenarios.love_asked "  ").
  vm_compute. reflexivity.
Defined.

Lemma menu_buttons_are_handled_witness :
  exists rows,
    main_menu_markup = Some rows /\
    (forall t, is_Some (TOPICS !! t) <->
       exists btn, btn ∈ concat rows /\ callback_data btn = "topic:" +:+ t) /\
    forall btn, btn ∈ concat rows ->
      exists t out,
        callback_data btn = "topic:" +:+ t /\
        TOPICS !! t = Some (label btn) /\
        step decimal_literal Examples.integer_literal false 1
          (mkBot (Some CHOOSING_TOPIC) None)
          (CallbackQuery (callback_data btn), Examples.quiet)
        = Some (mkBot (Some (if String.eqb t "oracle" then CHOOSING_TOPIC else MICRO_Q1))
                  (Some (set_topic t (default (new_session 1) None))),
                out) /\
        (t = "oracle" \/ t ∈ parsed_topics).
Proof.
  apply (menu_buttons_are_handled decimal_literal Examples.integer_literal false 1
           (mkBot (Some CHOOSING_TOPIC) None) Examples.quiet).
  reflexivity.
Defined.
